(** * Ricart-Agrawala mutual exclusion over Lamport clocks

    A shallow embedding of [lamport_clock.py] and of the coordinator in
    [client.py] ([MutualExclusionServiceImpl] and [IntelligentClient]),
    followed by the properties of the clock, of the request ordering, of
    the grant/defer decision, of the reply counting, of release and of the
    lock discipline.

    Python integers are unbounded, so every integer is a [Z].  One peer
    process is a [World]: the [IntelligentClient] object, its lock, what it
    printed, the RPCs it issued, and a ghost trace of the accesses it made
    to its fields.  Methods are computations in a small state monad [M] over
    [World]; a computation that never returns (a lock that is never
    released, a polling loop that never sees its condition) is [None]. *)

From Stdlib Require Import ZArith List Bool String Lia.
Import ListNotations.
Open Scope Z_scope.

(** ** lamport_clock.py *)

Record LamportClock := { time : Z }.

(** [LamportClock.__init__] *)
Definition LamportClock_init (initial_time : Z) : LamportClock :=
  {| time := initial_time |}.

(** [self.time += 1; return self.time]: the result and the clock after. *)
Definition increment (c : LamportClock) : Z * LamportClock :=
  let c' := {| time := time c + 1 |} in (time c', c').

(** [self.time = max(self.time, received_time) + 1; return self.time] *)
Definition update (c : LamportClock) (received_time : Z) : Z * LamportClock :=
  let c' := {| time := Z.max (time c) received_time + 1 |} in (time c', c').

(** [return self.time] *)
Definition get_time (c : LamportClock) : Z * LamportClock := (time c, c).

(** A call on a clock, and a sequence of calls run from left to right. *)
Inductive ClockCall := CallIncrement | CallUpdate (received_time : Z).

Definition clock_call (c : LamportClock) (k : ClockCall) : LamportClock :=
  match k with
  | CallIncrement => snd (increment c)
  | CallUpdate x => snd (update c x)
  end.

Definition clock_calls (c : LamportClock) (ks : list ClockCall) : LamportClock :=
  fold_left clock_call ks c.

(** ** The order on requests

    Python compares the tuples [(timestamp, client_id)] element by element:
    the first position at which they differ decides, and two tuples of the
    same length that differ nowhere are not below one another. *)
Definition tuple_lt (a b : Z * Z) : bool :=
  if fst a =? fst b
  then (if snd a =? snd b then false else snd a <? snd b)
  else fst a <? fst b.

(** The rule as the data model words it:
    [(t1, p1) < (t2, p2)] when [t1 < t2], or [t1 = t2] and [p1 < p2]. *)
Definition record_lt (a b : Z * Z) : Prop :=
  fst a < fst b \/ (fst a = fst b /\ snd a < snd b).

(** ** Messages of the RPC interface *)

(** Modelled from the spec: the protobuf module [distributed_printing_pb2]
    is generated code that is not part of the sources.  The field sets are
    those of the RPC methods [RequestAccess] and [ReleaseAccess], with the
    field names [client.py] uses; an [int] field holds any integer. *)
Record AccessRequest := {
  req_client_id : Z;
  req_lamport_timestamp : Z;
  req_request_number : Z
}.

Record AccessResponse := {
  access_granted : bool;
  resp_lamport_timestamp : Z
}.

Record ReleaseMessage := {
  rel_client_id : Z;
  rel_lamport_timestamp : Z;
  rel_request_number : Z
}.

Record ReleaseResponse := { acknowledged : bool }.

(** What an outbound call comes back with: a response, or [grpc.RpcError]
    (timeout, connection refused). *)
Inductive RpcResult (A : Type) :=
| RpcOk (response : A)
| RpcError.
Arguments RpcOk {A} response.
Arguments RpcError {A}.

(** The peers as seen from this process.  A stub call is answered from the
    target address, the message, and the number of calls issued before it,
    so any sequence of outcomes can be played. *)
Record Network := {
  stub_RequestAccess : string -> AccessRequest -> nat -> RpcResult AccessResponse;
  stub_ReleaseAccess : string -> ReleaseMessage -> nat -> RpcResult ReleaseResponse
}.

Inductive Rpc :=
| SentRequestAccess (target_address : string) (request : AccessRequest)
| SentReleaseAccess (target_address : string) (release_msg : ReleaseMessage).

(** ** client.py: the state of one peer *)

Record IntelligentClient := {
  client_id : Z;
  client_port : Z;
  print_server_address : string;
  other_clients : list (Z * string);
  clock : LamportClock;
  requesting : bool;
  request_timestamp : Z;
  request_number : Z;
  replies_received : Z;
  deferred_requests : list (Z * Z);
  total_prints : Z;
  running : bool
}.

(** [IntelligentClient.__init__] *)
Definition IntelligentClient_init (client_id client_port : Z)
    (print_server_address : string) (other_clients : list (Z * string))
    : IntelligentClient :=
  {| client_id := client_id;
     client_port := client_port;
     print_server_address := print_server_address;
     other_clients := other_clients;
     clock := LamportClock_init 0;
     requesting := false;
     request_timestamp := 0;
     request_number := 0;
     replies_received := 0;
     deferred_requests := [];
     total_prints := 0;
     running := true |}.

Definition set_clock (k : LamportClock) (c : IntelligentClient) :=
  {| client_id := client_id c; client_port := client_port c;
     print_server_address := print_server_address c;
     other_clients := other_clients c; clock := k;
     requesting := requesting c; request_timestamp := request_timestamp c;
     request_number := request_number c;
     replies_received := replies_received c;
     deferred_requests := deferred_requests c;
     total_prints := total_prints c; running := running c |}.

Definition set_requesting (b : bool) (c : IntelligentClient) :=
  {| client_id := client_id c; client_port := client_port c;
     print_server_address := print_server_address c;
     other_clients := other_clients c; clock := clock c;
     requesting := b; request_timestamp := request_timestamp c;
     request_number := request_number c;
     replies_received := replies_received c;
     deferred_requests := deferred_requests c;
     total_prints := total_prints c; running := running c |}.

Definition set_request_timestamp (t : Z) (c : IntelligentClient) :=
  {| client_id := client_id c; client_port := client_port c;
     print_server_address := print_server_address c;
     other_clients := other_clients c; clock := clock c;
     requesting := requesting c; request_timestamp := t;
     request_number := request_number c;
     replies_received := replies_received c;
     deferred_requests := deferred_requests c;
     total_prints := total_prints c; running := running c |}.

Definition set_request_number (n : Z) (c : IntelligentClient) :=
  {| client_id := client_id c; client_port := client_port c;
     print_server_address := print_server_address c;
     other_clients := other_clients c; clock := clock c;
     requesting := requesting c; request_timestamp := request_timestamp c;
     request_number := n;
     replies_received := replies_received c;
     deferred_requests := deferred_requests c;
     total_prints := total_prints c; running := running c |}.

Definition set_replies_received (n : Z) (c : IntelligentClient) :=
  {| client_id := client_id c; client_port := client_port c;
     print_server_address := print_server_address c;
     other_clients := other_clients c; clock := clock c;
     requesting := requesting c; request_timestamp := request_timestamp c;
     request_number := request_number c;
     replies_received := n;
     deferred_requests := deferred_requests c;
     total_prints := total_prints c; running := running c |}.

Definition set_deferred_requests (q : list (Z * Z)) (c : IntelligentClient) :=
  {| client_id := client_id c; client_port := client_port c;
     print_server_address := print_server_address c;
     other_clients := other_clients c; clock := clock c;
     requesting := requesting c; request_timestamp := request_timestamp c;
     request_number := request_number c;
     replies_received := replies_received c;
     deferred_requests := q;
     total_prints := total_prints c; running := running c |}.

(** The text of a log line, with the values its f-string interpolates. *)
Inductive Message :=
| MsgGranted (requesting_client requesting_timestamp : Z)
| MsgDeferred (requesting_client requesting_timestamp : Z)
| MsgReceivedRelease (sender : Z)
| MsgRequesting (current_request current_timestamp : Z)
| MsgAllReplies
| MsgReceivedGrant (target received total : Z)
| MsgReceivedDefer (target received total : Z)
| MsgErrorRequesting (target : Z)
| MsgReleasing (release_timestamp : Z)
| MsgGrantingDeferred (deferred_client_id : Z)
| MsgErrorRelease (target : Z).

(** A printed line: [[Client id] [LT: clock] message] (the wall-clock
    prefix is left out). *)
Record LogLine := { line_client : Z; line_lt : Z; line_message : Message }.

(** The mutable attributes of the client object. *)
Inductive Field :=
| FClock | FRequesting | FRequestTimestamp | FRequestNumber
| FRepliesReceived | FDeferredRequests | FTotalPrints.

Inductive AccessKind := Read | Write.

(** One access to an attribute, with whether [self.lock] was held. *)
Record Access := {
  acc_field : Field;
  acc_kind : AccessKind;
  acc_locked : bool
}.

(** The peer process.  [accesses], [console] and [outbox] list the most
    recent entry first. *)
Record World := {
  self : IntelligentClient;
  lock_held : bool;
  accesses : list Access;
  console : list LogLine;
  outbox : list Rpc
}.

Definition World_init (c : IntelligentClient) : World :=
  {| self := c; lock_held := false; accesses := []; console := []; outbox := [] |}.

(** ** The monad of methods *)

Definition M (A : Type) : Type := World -> option (A * World).

Definition ret {A} (a : A) : M A := fun w => Some (a, w).

Definition bind {A B} (m : M A) (f : A -> M B) : M B :=
  fun w => match m w with
           | Some (a, w') => f a w'
           | None => None
           end.

Notation "x <- m ;; k" := (bind m (fun x => k))
  (at level 61, m at next level, right associativity).
Notation "m ;; k" := (bind m (fun _ => k))
  (at level 61, right associativity).

(** Records one access, tagged with the state of the lock. *)
Definition touch (f : Field) (k : AccessKind) : M unit :=
  fun w => Some (tt,
    {| self := self w; lock_held := lock_held w;
       accesses := {| acc_field := f; acc_kind := k; acc_locked := lock_held w |}
                   :: accesses w;
       console := console w; outbox := outbox w |}).

Definition peek {A} (proj : IntelligentClient -> A) : M A :=
  fun w => Some (proj (self w), w).

Definition poke (upd : IntelligentClient -> IntelligentClient) : M unit :=
  fun w => Some (tt,
    {| self := upd (self w); lock_held := lock_held w;
       accesses := accesses w; console := console w; outbox := outbox w |}).

(** Reading and assigning an attribute. *)
Definition load {A} (f : Field) (proj : IntelligentClient -> A) : M A :=
  touch f Read ;; peek proj.

Definition store (f : Field) (upd : IntelligentClient -> IntelligentClient) : M unit :=
  touch f Write ;; poke upd.

(** [self.lock] is a [threading.Lock]: not re-entrant.  Acquiring it while
    it is held waits for a release that, in one thread, never comes. *)
Definition acquire : M unit :=
  fun w => if lock_held w then None
           else Some (tt,
             {| self := self w; lock_held := true; accesses := accesses w;
                console := console w; outbox := outbox w |}).

Definition release : M unit :=
  fun w => Some (tt,
    {| self := self w; lock_held := false; accesses := accesses w;
       console := console w; outbox := outbox w |}).

(** [with self.lock: body]; leaving the block by [return] or [break]
    releases the lock as well. *)
Definition with_lock {A} (body : M A) : M A :=
  acquire ;; r <- body ;; release ;; ret r.

(** [self.clock.increment()], [self.clock.update(x)], [self.clock.get_time()] *)
Definition clock_increment : M Z :=
  touch FClock Read ;; touch FClock Write ;;
  k <- peek clock ;;
  poke (set_clock (snd (increment k))) ;;
  ret (fst (increment k)).

Definition clock_update (received_time : Z) : M Z :=
  touch FClock Read ;; touch FClock Write ;;
  k <- peek clock ;;
  poke (set_clock (snd (update k received_time))) ;;
  ret (fst (update k received_time)).

Definition clock_get_time : M Z :=
  touch FClock Read ;;
  k <- peek clock ;;
  ret (fst (get_time k)).

Definition print (l : LogLine) : M unit :=
  fun w => Some (tt,
    {| self := self w; lock_held := lock_held w; accesses := accesses w;
       console := l :: console w; outbox := outbox w |}).

(** [IntelligentClient.log] *)
Definition log (message : Message) : M unit :=
  cid <- peek client_id ;;
  lt <- clock_get_time ;;
  print {| line_client := cid; line_lt := lt; line_message := message |}.

(** A loop [for x in xs: body]. *)
Fixpoint for_each {A} (xs : list A) (body : A -> M unit) : M unit :=
  match xs with
  | [] => ret tt
  | x :: rest => body x ;; for_each rest body
  end.

(** An outbound call: recorded in [outbox], answered by the network. *)
Definition call_RequestAccess (net : Network) (target_address : string)
    (request : AccessRequest) : M (RpcResult AccessResponse) :=
  fun w => Some (stub_RequestAccess net target_address request (List.length (outbox w)),
    {| self := self w; lock_held := lock_held w; accesses := accesses w;
       console := console w;
       outbox := SentRequestAccess target_address request :: outbox w |}).

Definition call_ReleaseAccess (net : Network) (target_address : string)
    (release_msg : ReleaseMessage) : M (RpcResult ReleaseResponse) :=
  fun w => Some (stub_ReleaseAccess net target_address release_msg (List.length (outbox w)),
    {| self := self w; lock_held := lock_held w; accesses := accesses w;
       console := console w;
       outbox := SentReleaseAccess target_address release_msg :: outbox w |}).

(** ** MutualExclusionServiceImpl *)

(** [not self.client.requesting or
     (requesting_timestamp, requesting_client)
       < (self.client.request_timestamp, self.client.client_id)];
    [or] evaluates its right operand only when the left one is false. *)
Definition should_grant (requesting_timestamp requesting_client : Z) : M bool :=
  r <- load FRequesting requesting ;;
  if negb r then ret true
  else
    own_timestamp <- load FRequestTimestamp request_timestamp ;;
    own_id <- peek client_id ;;
    ret (tuple_lt (requesting_timestamp, requesting_client) (own_timestamp, own_id)).

(** [self.client.deferred_requests.append(entry)] *)
Definition deferred_requests_append (entry : Z * Z) : M unit :=
  store FDeferredRequests
    (fun c => set_deferred_requests (deferred_requests c ++ [entry]) c).

Definition RequestAccess (request : AccessRequest) : M AccessResponse :=
  clock_update (req_lamport_timestamp request) ;;
  with_lock (
    let requesting_client := req_client_id request in
    let requesting_timestamp := req_lamport_timestamp request in
    grant <- should_grant requesting_timestamp requesting_client ;;
    if grant then
      response_timestamp <- clock_increment ;;
      log (MsgGranted requesting_client requesting_timestamp) ;;
      ret {| access_granted := true;
             resp_lamport_timestamp := response_timestamp |}
    else
      deferred_requests_append (requesting_client, req_lamport_timestamp request) ;;
      log (MsgDeferred requesting_client requesting_timestamp) ;;
      response_timestamp <- clock_increment ;;
      ret {| access_granted := false;
             resp_lamport_timestamp := response_timestamp |}).

Definition ReleaseAccess (request : ReleaseMessage) : M ReleaseResponse :=
  clock_update (rel_lamport_timestamp request) ;;
  with_lock (
    log (MsgReceivedRelease (rel_client_id request)) ;;
    response_timestamp <- clock_increment ;;
    ret {| acknowledged := true |}).

(** ** IntelligentClient *)

(** [self.replies_received += 1] *)
Definition replies_received_incr : M unit :=
  n <- load FRepliesReceived replies_received ;;
  store FRepliesReceived (set_replies_received (n + 1)).

(** The counter and the total that the GRANT and DEFER lines interpolate:
    [self.replies_received] and [len(self.other_clients)]. *)
Definition reply_progress : M (Z * Z) :=
  n <- load FRepliesReceived replies_received ;;
  peers <- peek other_clients ;;
  ret (n, Z.of_nat (List.length peers)).

Definition send_access_request (net : Network) (target_client_id : Z)
    (target_address : string) (request_num timestamp : Z) : M unit :=
  own_id <- peek client_id ;;
  let request := {| req_client_id := own_id;
                    req_lamport_timestamp := timestamp;
                    req_request_number := request_num |} in
  result <- call_RequestAccess net target_address request ;;
  match result with
  | RpcOk response =>
      clock_update (resp_lamport_timestamp response) ;;
      if access_granted response then
        with_lock (
          replies_received_incr ;;
          p <- reply_progress ;;
          log (MsgReceivedGrant target_client_id (fst p) (snd p)))
      else
        with_lock (
          replies_received_incr ;;
          p <- reply_progress ;;
          log (MsgReceivedDefer target_client_id (fst p) (snd p)))
  | RpcError =>
      log (MsgErrorRequesting target_client_id) ;;
      with_lock replies_received_incr
  end.

(** The first block of [request_critical_section], under the lock; it
    yields [(current_request, current_timestamp)]. *)
Definition request_begin : M (Z * Z) :=
  with_lock (
    store FRequesting (set_requesting true) ;;
    n <- load FRequestNumber request_number ;;
    store FRequestNumber (set_request_number (n + 1)) ;;
    t <- clock_increment ;;
    store FRequestTimestamp (set_request_timestamp t) ;;
    store FRepliesReceived (set_replies_received 0) ;;
    current_request <- load FRequestNumber request_number ;;
    current_timestamp <- load FRequestTimestamp request_timestamp ;;
    ret (current_request, current_timestamp)).

(** [while True: with self.lock: if self.replies_received >= required_replies:
    break; time.sleep(0.1)].  [polls] bounds the number of times the
    condition is looked at; sleeping changes nothing in this process. *)
Fixpoint wait_for_replies (polls : nat) (required_replies : Z) : M unit :=
  match polls with
  | O => fun _ => None
  | S polls' =>
      enough <- with_lock (
        n <- load FRepliesReceived replies_received ;;
        ret (n >=? required_replies)) ;;
      if enough then ret tt
      else wait_for_replies polls' required_replies
  end.

Definition request_critical_section (net : Network) (polls : nat) : M unit :=
  current <- request_begin ;;
  let current_request := fst current in
  let current_timestamp := snd current in
  log (MsgRequesting current_request current_timestamp) ;;
  peers <- peek other_clients ;;
  for_each peers (fun peer =>
    send_access_request net (fst peer) (snd peer) current_request current_timestamp) ;;
  peers' <- peek other_clients ;;
  let required_replies := Z.of_nat (List.length peers') in
  wait_for_replies polls required_replies ;;
  log MsgAllReplies.

Definition send_release_notification (net : Network) (target_client_id : Z)
    (target_address : string) (timestamp : Z) : M unit :=
  own_id <- peek client_id ;;
  n <- load FRequestNumber request_number ;;
  let release_msg := {| rel_client_id := own_id;
                        rel_lamport_timestamp := timestamp;
                        rel_request_number := n |} in
  result <- call_ReleaseAccess net target_address release_msg ;;
  match result with
  | RpcOk _ => ret tt
  | RpcError => log (MsgErrorRelease target_client_id)
  end.

(** The first block of [release_critical_section], under the lock; it
    yields [(deferred, release_timestamp)]. *)
Definition release_begin : M (list (Z * Z) * Z) :=
  with_lock (
    store FRequesting (set_requesting false) ;;
    deferred <- load FDeferredRequests deferred_requests ;;
    store FDeferredRequests (set_deferred_requests []) ;;
    release_timestamp <- clock_increment ;;
    ret (deferred, release_timestamp)).

Definition release_critical_section (net : Network) : M unit :=
  taken <- release_begin ;;
  let deferred := fst taken in
  let release_timestamp := snd taken in
  log (MsgReleasing release_timestamp) ;;
  peers <- peek other_clients ;;
  for_each peers (fun peer =>
    send_release_notification net (fst peer) (snd peer) release_timestamp) ;;
  for_each deferred (fun entry => log (MsgGrantingDeferred (fst entry))).

(** ** Operations as events

    What can happen to one peer: the two inbound handlers, its own two
    operations, and the pieces of those two between which an inbound call
    may be served (each piece takes the lock for itself). *)
Inductive Event :=
| EvRequestAccess (request : AccessRequest)
| EvReleaseAccess (request : ReleaseMessage)
| EvRequestCriticalSection (net : Network) (polls : nat)
| EvReleaseCriticalSection (net : Network)
| EvRequestBegin
| EvSendAccessRequest (net : Network) (target_client_id : Z)
    (target_address : string) (request_num timestamp : Z)
| EvWaitForReplies (polls : nat) (required_replies : Z)
| EvReleaseBegin
| EvSendReleaseNotification (net : Network) (target_client_id : Z)
    (target_address : string) (timestamp : Z).

Definition perform (e : Event) : M unit :=
  match e with
  | EvRequestAccess request => RequestAccess request ;; ret tt
  | EvReleaseAccess request => ReleaseAccess request ;; ret tt
  | EvRequestCriticalSection net polls => request_critical_section net polls
  | EvReleaseCriticalSection net => release_critical_section net
  | EvRequestBegin => request_begin ;; ret tt
  | EvSendAccessRequest net target address num timestamp =>
      send_access_request net target address num timestamp
  | EvWaitForReplies polls required => wait_for_replies polls required
  | EvReleaseBegin => release_begin ;; ret tt
  | EvSendReleaseNotification net target address timestamp =>
      send_release_notification net target address timestamp
  end.

(** Events one after the other; [None] when one of them never returns. *)
Fixpoint run (events : list Event) (w : World) : option World :=
  match events with
  | [] => Some w
  | e :: rest =>
      match perform e w with
      | Some (_, w') => run rest w'
      | None => None
      end
  end.

(** The defer branch of [RequestAccess] is taken. *)
Definition defers (c : IntelligentClient) (request : AccessRequest) : bool :=
  requesting c &&
  negb (tuple_lt (req_lamport_timestamp request, req_client_id request)
                 (request_timestamp c, client_id c)).

(** What one event may do to the deferred queue. *)
Definition queue_step (e : Event) (c c' : IntelligentClient) : Prop :=
  match e with
  | EvRequestAccess request =>
      if defers c request
      then deferred_requests c' =
           deferred_requests c ++ [(req_client_id request, req_lamport_timestamp request)]
      else deferred_requests c' = deferred_requests c
  | EvReleaseCriticalSection _ | EvReleaseBegin => deferred_requests c' = []
  | _ => deferred_requests c' = deferred_requests c
  end.

(** A request is only ever held back by a peer that is itself requesting. *)
Definition queue_invariant (c : IntelligentClient) : Prop :=
  deferred_requests c <> [] -> requesting c = true.

(** ** Frames *)

Definition same_config (c c' : IntelligentClient) : Prop :=
  client_id c' = client_id c /\
  client_port c' = client_port c /\
  print_server_address c' = print_server_address c /\
  other_clients c' = other_clients c /\
  running c' = running c.

Definition unchanged (f : Field) (c c' : IntelligentClient) : Prop :=
  match f with
  | FClock => clock c' = clock c
  | FRequesting => requesting c' = requesting c
  | FRequestTimestamp => request_timestamp c' = request_timestamp c
  | FRequestNumber => request_number c' = request_number c
  | FRepliesReceived => replies_received c' = replies_received c
  | FDeferredRequests => deferred_requests c' = deferred_requests c
  | FTotalPrints => total_prints c' = total_prints c
  end.

(** From [c] to [c'] nothing but the attributes [fs] was modified. *)
Definition modifies (fs : list Field) (c c' : IntelligentClient) : Prop :=
  same_config c c' /\ forall f, ~ In f fs -> unchanged f c c'.

(** ** Lock discipline *)

(** The attributes the coordinator shares between its threads. *)
Definition shared_field (f : Field) : bool :=
  match f with
  | FClock | FRequesting | FRequestTimestamp | FRepliesReceived
  | FDeferredRequests => true
  | FRequestNumber | FTotalPrints => false
  end.

(** The same without the clock. *)
Definition state_field (f : Field) : bool :=
  match f with
  | FRequesting | FRequestTimestamp | FRepliesReceived
  | FDeferredRequests => true
  | FClock | FRequestNumber | FTotalPrints => false
  end.

(** Every recorded access to a field of [fields] was made under the lock. *)
Definition lock_discipline (fields : Field -> bool) (trace : list Access) : bool :=
  forallb (fun a => implb (fields (acc_field a)) (acc_locked a)) trace.

(** ** The tie at timestamp 5

    A peer that is requesting with [request_timestamp = 5], its clock
    being at 5 since the stamp is what [clock.increment()] returned. *)
Definition tie_peer (id : Z) (peers : list (Z * string)) : World :=
  World_init
    (set_requesting true
      (set_request_number 1
        (set_request_timestamp 5
          (set_clock {| time := 5 |}
            (IntelligentClient_init id (50051 + id) "localhost:50051" peers))))).

Definition peer_A : World := tie_peer 1 [(2, "localhost:50053"%string)].
Definition peer_B : World := tie_peer 2 [(1, "localhost:50052"%string)].

(** The request each of the two sends to the other. *)
Definition request_of_A : AccessRequest :=
  {| req_client_id := 1; req_lamport_timestamp := 5; req_request_number := 1 |}.
Definition request_of_B : AccessRequest :=
  {| req_client_id := 2; req_lamport_timestamp := 5; req_request_number := 1 |}.

(** Whether a handler returned, and with what. *)
Definition granted (r : option (AccessResponse * World)) : option bool :=
  option_map (fun p => access_granted (fst p)) r.

Definition queue_after {A} (r : option (A * World)) : option (list (Z * Z)) :=
  option_map (fun p => deferred_requests (self (snd p))) r.

(** A network in which every call times out, and one in which every peer
    answers a request with a deferral stamped 9. *)
Definition unreachable : Network :=
  {| stub_RequestAccess := fun _ _ _ => RpcError;
     stub_ReleaseAccess := fun _ _ _ => RpcError |}.

Definition deferring : Network :=
  {| stub_RequestAccess := fun _ _ _ =>
       RpcOk {| access_granted := false; resp_lamport_timestamp := 9 |};
     stub_ReleaseAccess := fun _ _ _ => RpcOk {| acknowledged := true |} |}.

(** The three-peer topology of [client.py]'s [__main__], seen from client 1. *)
Definition client_1 : World :=
  World_init (IntelligentClient_init 1 50052 "localhost:50051"
    [(2, "localhost:50053"%string); (3, "localhost:50054"%string)]).

(** A peer with no other peer configured. *)
Definition lone_client : World :=
  World_init (IntelligentClient_init 1 50052 "localhost:50051" []).

(** * The printer path

    The rest of [client.py] ([send_to_printer], [print_document],
    [show_status]) and the print server of [print_server.py]. *)

From Stdlib Require DecimalString.

(** Modelled from the spec: the messages of [SendToPrinter], which
    [distributed_printing_pb2] declares, with the field names the two
    Python files use. *)
Record PrintRequest := {
  pr_client_id : Z;
  pr_message_content : string;
  pr_lamport_timestamp : Z;
  pr_request_number : Z
}.

Record PrintResponse := {
  success : bool;
  confirmation_message : string;
  pres_lamport_timestamp : Z
}.

(** [str(n)] for an integer: decimal digits, with a minus sign below zero. *)
Definition str (n : Z) : string :=
  DecimalString.NilZero.string_of_int (Z.to_int n).

(** ** print_server.py *)

(** What the server writes for one job: the stamp, client, request number
    and text of the request, and the total the completion line shows (the
    wall-clock time and the simulated delay are left out). *)
Record PrintedJob := {
  job_timestamp : Z;
  job_client_id : Z;
  job_request_number : Z;
  job_content : string;
  job_total : Z
}.

(** [printed] is the server's output, most recent job first. *)
Record PrintingServiceImpl := {
  server_clock : LamportClock;
  print_count : Z;
  printed : list PrintedJob
}.

(** [PrintingServiceImpl.__init__] *)
Definition PrintingServiceImpl_init : PrintingServiceImpl :=
  {| server_clock := LamportClock_init 0; print_count := 0; printed := [] |}.

Definition SendToPrinter (request : PrintRequest) (s : PrintingServiceImpl)
    : PrintResponse * PrintingServiceImpl :=
  let received := snd (update (server_clock s) (pr_lamport_timestamp request)) in
  let count := print_count s + 1 in
  let job := {| job_timestamp := pr_lamport_timestamp request;
                job_client_id := pr_client_id request;
                job_request_number := pr_request_number request;
                job_content := pr_message_content request;
                job_total := count |} in
  let response_timestamp := fst (increment received) in
  ({| success := true;
      confirmation_message :=
        ("Print completed for client " ++ str (pr_client_id request))%string;
      pres_lamport_timestamp := response_timestamp |},
   {| server_clock := snd (increment received);
      print_count := count;
      printed := job :: printed s |}).

(** Requests handled one after the other; the responses in the same order. *)
Fixpoint serve_all (requests : list PrintRequest) (s : PrintingServiceImpl)
    : list PrintResponse * PrintingServiceImpl :=
  match requests with
  | [] => ([], s)
  | request :: rest =>
      let r := SendToPrinter request s in
      let rs := serve_all rest (snd r) in
      (fst r :: fst rs, snd rs)
  end.

(** ** client.py: the printer path *)

(** The print server as seen from a client: answered from the address,
    the request, and the number of print calls issued before. *)
Definition Printer : Type :=
  string -> PrintRequest -> nat -> RpcResult PrintResponse.

(** A print server in state [s] that answers, and one that cannot be
    reached. *)
Definition printer_of (s : PrintingServiceImpl) : Printer :=
  fun _ request _ => RpcOk (fst (SendToPrinter request s)).

Definition printer_down : Printer := fun _ _ _ => RpcError.

(** The log lines of the printer path. *)
Inductive Notice :=
| MsgSendingToPrinter (message : string)
| MsgPrintConfirmed (confirmation : string)
| MsgPrintFailed
| MsgErrorPrinter.

(** What the printer path and [show_status] write: a log line
    [[Client id] [LT: clock] notice], or the status banner with port,
    clock, [requesting], [total_prints] and the length of the deferred
    queue. *)
Inductive Output :=
| OutLog (client lt : Z) (notice : Notice)
| OutStatus (client port lt : Z) (is_requesting : bool)
    (prints deferred : Z).

(** The peer process together with what its printer path sent and wrote,
    most recent first. *)
Record Station := {
  world : World;
  print_calls : list (string * PrintRequest);
  notices : list Output
}.

Definition Station_init (w : World) : Station :=
  {| world := w; print_calls := []; notices := [] |}.

Definition MP (A : Type) : Type := Station -> option (A * Station).

Definition retP {A} (a : A) : MP A := fun s => Some (a, s).

Definition bindP {A B} (m : MP A) (f : A -> MP B) : MP B :=
  fun s => match m s with
           | Some (a, s') => f a s'
           | None => None
           end.

Declare Scope station_scope.
Delimit Scope station_scope with station.
Notation "x <- m ;; k" := (bindP m (fun x => k))
  (at level 61, m at next level, right associativity) : station_scope.
Notation "m ;; k" := (bindP m (fun _ => k))
  (at level 61, right associativity) : station_scope.

(** A method of the coordinator, run inside the station. *)
Definition lift {A} (m : M A) : MP A :=
  fun s => match m (world s) with
           | Some (a, w') =>
               Some (a, {| world := w'; print_calls := print_calls s;
                           notices := notices s |})
           | None => None
           end.

Definition emit (o : Output) : MP unit :=
  fun s => Some (tt, {| world := world s; print_calls := print_calls s;
                        notices := o :: notices s |}).

(** [self.log] with a notice of the printer path. *)
Definition log_notice (notice : Notice) : MP unit :=
  (cid <- lift (peek client_id) ;;
   lt <- lift clock_get_time ;;
   emit (OutLog cid lt notice))%station.

Definition call_SendToPrinter (printer : Printer) (address : string)
    (request : PrintRequest) : MP (RpcResult PrintResponse) :=
  fun s => Some (printer address request (List.length (print_calls s)),
    {| world := world s;
       print_calls := (address, request) :: print_calls s;
       notices := notices s |}).

Definition set_total_prints (n : Z) (c : IntelligentClient) :=
  {| client_id := client_id c; client_port := client_port c;
     print_server_address := print_server_address c;
     other_clients := other_clients c; clock := clock c;
     requesting := requesting c; request_timestamp := request_timestamp c;
     request_number := request_number c;
     replies_received := replies_received c;
     deferred_requests := deferred_requests c;
     total_prints := n; running := running c |}.

(** [self.total_prints += 1] *)
Definition total_prints_incr : M unit :=
  n <- load FTotalPrints total_prints ;;
  store FTotalPrints (set_total_prints (n + 1)).

Definition send_to_printer (printer : Printer) (message : string) : MP unit :=
  (address <- lift (peek print_server_address) ;;
   timestamp <- lift clock_increment ;;
   own_id <- lift (peek client_id) ;;
   number <- lift (load FRequestNumber request_number) ;;
   let request := {| pr_client_id := own_id;
                     pr_message_content := message;
                     pr_lamport_timestamp := timestamp;
                     pr_request_number := number |} in
   log_notice (MsgSendingToPrinter message) ;;
   result <- call_SendToPrinter printer address request ;;
   match result with
   | RpcOk response =>
       lift (clock_update (pres_lamport_timestamp response)) ;;
       if success response then
         lift total_prints_incr ;;
         log_notice (MsgPrintConfirmed (confirmation_message response))
       else
         log_notice MsgPrintFailed
   | RpcError => log_notice MsgErrorPrinter
   end)%station.

Definition print_document (net : Network) (printer : Printer) (polls : nat)
    (message : string) : MP unit :=
  (lift (request_critical_section net polls) ;;
   send_to_printer printer message ;;
   lift (release_critical_section net))%station.

Definition show_status : MP unit :=
  (cid <- lift (peek client_id) ;;
   port <- lift (peek client_port) ;;
   lt <- lift clock_get_time ;;
   r <- lift (load FRequesting requesting) ;;
   prints <- lift (load FTotalPrints total_prints) ;;
   deferred <- lift (load FDeferredRequests deferred_requests) ;;
   emit (OutStatus cid port lt r prints (Z.of_nat (List.length deferred))))%station.

(** ** Two peers

    What a peer in state [b] answers to an access request: the response of
    its handler, or a timeout when the handler does not return. *)
Definition answer_of (b : World) (request : AccessRequest)
    : RpcResult AccessResponse :=
  match RequestAccess request b with
  | Some (response, _) => RpcOk response
  | None => RpcError
  end.

(** The network in which every access request reaches the peer [b]. *)
Definition network_of (b : World) : Network :=
  {| stub_RequestAccess := fun _ request _ => answer_of b request;
     stub_ReleaseAccess := fun _ _ _ => RpcOk {| acknowledged := true |} |}.

(** The access request a peer broadcasts for its pending request. *)
Definition own_request (w : World) : AccessRequest :=
  {| req_client_id := client_id (self w);
     req_lamport_timestamp := request_timestamp (self w);
     req_request_number := request_number (self w) |}.

(** The queue entry [RequestAccess] makes of a request. *)
Definition entry_of (request : AccessRequest) : Z * Z :=
  (req_client_id request, req_lamport_timestamp request).

(** Inbound access requests handled one after the other. *)
Definition inbound (requests : list AccessRequest) : list Event :=
  map EvRequestAccess requests.

(** The received timestamps of a sequence of clock calls. *)
Definition received_times (ks : list ClockCall) : list Z :=
  flat_map (fun k => match k with
                     | CallIncrement => []
                     | CallUpdate x => [x]
                     end) ks.

(** Whether an event starts a request of the peer's own. *)
Definition starts_request (e : Event) : bool :=
  match e with
  | EvRequestCriticalSection _ _ | EvRequestBegin => true
  | _ => false
  end.

(** The stamp an event brings in from outside, if any: the timestamp of an
    inbound request or release. *)
Definition inbound_stamp (e : Event) : option Z :=
  match e with
  | EvRequestAccess request => Some (req_lamport_timestamp request)
  | EvReleaseAccess request => Some (rel_lamport_timestamp request)
  | _ => None
  end.

(** The stamps a peer holds are not ahead of its clock: its own request's
    timestamp is at most the clock, and every deferred request carries a
    timestamp below it. *)
Definition stamps_ok (c : IntelligentClient) : Prop :=
  request_timestamp c <= time (clock c) /\
  Forall (fun entry => snd entry < time (clock c)) (deferred_requests c).

(** The release message a peer in state [c] sends with stamp [timestamp]. *)
Definition release_message (c : IntelligentClient) (timestamp : Z) : ReleaseMessage :=
  {| rel_client_id := client_id c;
     rel_lamport_timestamp := timestamp;
     rel_request_number := request_number c |}.

(** The state a sequence of events leads to ([w] itself when one of them
    does not return). *)
Definition state_after (events : list Event) (w : World) : World :=
  match run events w with
  | Some w' => w'
  | None => w
  end.

(** Client 1 of the three-peer topology, having started a request and
    deferred the request (7, 3) of client 3. *)
Definition client_1_deferring : World :=
  state_after
    [EvRequestBegin;
     EvRequestAccess {| req_client_id := 3; req_lamport_timestamp := 7;
                        req_request_number := 1 |}] client_1.

(** ** client.py: the topology of [__main__]

    The port a client listens on and the [(id, address)] of the other
    clients, by client id; [None] where the script prints "Invalid
    client_id" and exits. *)
Definition main_config (client_id : Z) : option (Z * list (Z * string)) :=
  if client_id =? 1 then
    Some (50052, [(2, "localhost:50053"%string); (3, "localhost:50054"%string)])
  else if client_id =? 2 then
    Some (50053, [(1, "localhost:50052"%string); (3, "localhost:50054"%string)])
  else if client_id =? 3 then
    Some (50054, [(1, "localhost:50052"%string); (2, "localhost:50053"%string)])
  else None.

(** The address under which a client that serves on [port] (it binds
    [[::]:port]) is reached on the same host. *)
Definition local_address (port : Z) : string :=
  ("localhost:" ++ str port)%string.

(** * Properties *)

(** ** Tactics *)

(** Runs the straight-line part of a method on an explicit world. *)
Ltac run_M :=
  cbv beta iota zeta delta
    [bind ret load store touch peek poke acquire release with_lock
     clock_increment clock_update clock_get_time print log should_grant
     deferred_requests_append replies_received_incr reply_progress
     call_RequestAccess call_ReleaseAccess RequestAccess ReleaseAccess
     send_access_request request_begin release_begin
     send_release_notification
     self lock_held accesses console outbox];
  cbn [self lock_held accesses console outbox
       client_id client_port print_server_address other_clients clock
       requesting request_timestamp request_number replies_received
       deferred_requests total_prints running
       set_clock set_requesting set_request_timestamp set_request_number
       set_replies_received set_deferred_requests
       fst snd increment update get_time time negb].

(** Opens a world whose lock is known to be free. *)
Ltac open_world w H :=
  let c := fresh "c" in
  let l := fresh "l" in
  let tr := fresh "tr" in
  let con := fresh "con" in
  let out := fresh "out" in
  destruct w as [c l tr con out]; cbn [lock_held] in H; subst l.

(** Closes [modifies fs c c'] when [c'] is [c] with some attributes of [fs] set. *)
Ltac solve_modifies :=
  split;
  [ repeat split; reflexivity
  | let f := fresh "f" in
    let Hf := fresh "Hf" in
    intros f Hf; destruct f; cbn; try reflexivity;
    exfalso; apply Hf; cbn; tauto ].

(** Closes a lock-discipline goal over a trace with a known prefix. *)
Ltac solve_discipline :=
  let H := fresh "H" in
  intro H; unfold lock_discipline in *; cbn; exact H.

(** ** Frames *)

Lemma same_config_refl c : same_config c c.
Proof. repeat split; reflexivity. Qed.

Lemma same_config_trans c1 c2 c3 :
  same_config c1 c2 -> same_config c2 c3 -> same_config c1 c3.
Proof.
  intros (a1 & a2 & a3 & a4 & a5) (b1 & b2 & b3 & b4 & b5).
  repeat split; congruence.
Qed.

Lemma unchanged_refl f c : unchanged f c c.
Proof. destruct f; reflexivity. Qed.

Lemma unchanged_trans f c1 c2 c3 :
  unchanged f c1 c2 -> unchanged f c2 c3 -> unchanged f c1 c3.
Proof. destruct f; cbn; congruence. Qed.

Lemma modifies_refl fs c : modifies fs c c.
Proof. split; [apply same_config_refl | intros; apply unchanged_refl]. Qed.

Lemma modifies_trans fs c1 c2 c3 :
  modifies fs c1 c2 -> modifies fs c2 c3 -> modifies fs c1 c3.
Proof.
  intros [Hc1 Hu1] [Hc2 Hu2]; split.
  - eapply same_config_trans; eassumption.
  - intros f Hf. eapply unchanged_trans; [apply Hu1 | apply Hu2]; exact Hf.
Qed.

Lemma modifies_incl fs fs' c c' :
  incl fs fs' -> modifies fs c c' -> modifies fs' c c'.
Proof.
  intros Hi [Hc Hu]; split; [exact Hc |].
  intros f Hf. apply Hu. intro Hin. apply Hf, Hi, Hin.
Qed.

(** ** The order *)

Lemma tuple_lt_iff a b : tuple_lt a b = true <-> record_lt a b.
Proof.
  unfold tuple_lt, record_lt.
  destruct (Z.eqb_spec (fst a) (fst b)) as [He | Hne].
  - destruct (Z.eqb_spec (snd a) (snd b)) as [Hs | Hs].
    + split; [discriminate | lia].
    + rewrite Z.ltb_lt. lia.
  - rewrite Z.ltb_lt. lia.
Qed.

Lemma tuple_lt_false_iff a b : tuple_lt a b = false <-> ~ record_lt a b.
Proof.
  rewrite <- tuple_lt_iff. destruct (tuple_lt a b); split; congruence.
Qed.

(** ** Single steps of the methods *)

Lemma log_total message w :
  exists w',
    log message w = Some (tt, w') /\
    self w' = self w /\ lock_held w' = lock_held w /\ outbox w' = outbox w /\
    (lock_discipline state_field (accesses w) = true ->
     lock_discipline state_field (accesses w') = true).
Proof.
  destruct w as [c l tr con out]. run_M.
  eexists; split; [reflexivity |]. cbn.
  repeat split. solve_discipline.
Qed.

Lemma RequestAccess_total request w :
  lock_held w = false ->
  exists response w',
    RequestAccess request w = Some (response, w') /\
    lock_held w' = false /\ outbox w' = outbox w /\
    access_granted response = negb (defers (self w) request) /\
    self w' =
      set_clock
        (snd (increment (snd (update (clock (self w)) (req_lamport_timestamp request)))))
        (if defers (self w) request
         then set_deferred_requests
                (deferred_requests (self w) ++
                 [(req_client_id request, req_lamport_timestamp request)]) (self w)
         else self w) /\
    resp_lamport_timestamp response =
      fst (increment (snd (update (clock (self w)) (req_lamport_timestamp request)))) /\
    (lock_discipline state_field (accesses w) = true ->
     lock_discipline state_field (accesses w') = true).
Proof.
  intro H. open_world w H. unfold defers. run_M.
  destruct (requesting c) eqn:Hr; run_M.
  - destruct (tuple_lt _ _) eqn:Hlt; run_M;
      (eexists; eexists; split; [reflexivity |]); cbn;
      repeat split; solve_discipline.
  - (eexists; eexists; split; [reflexivity |]); cbn;
      repeat split; solve_discipline.
Qed.

Lemma ReleaseAccess_total request w :
  lock_held w = false ->
  exists w',
    ReleaseAccess request w = Some ({| acknowledged := true |}, w') /\
    lock_held w' = false /\ outbox w' = outbox w /\
    self w' =
      set_clock
        (snd (increment (snd (update (clock (self w)) (rel_lamport_timestamp request)))))
        (self w) /\
    (lock_discipline state_field (accesses w) = true ->
     lock_discipline state_field (accesses w') = true).
Proof.
  intro H. open_world w H. run_M.
  eexists; split; [reflexivity |]. cbn.
  repeat split. solve_discipline.
Qed.

Lemma send_access_request_total net target address num timestamp w :
  lock_held w = false ->
  let request := {| req_client_id := client_id (self w);
                    req_lamport_timestamp := timestamp;
                    req_request_number := num |} in
  let result := stub_RequestAccess net address request (List.length (outbox w)) in
  exists w',
    send_access_request net target address num timestamp w = Some (tt, w') /\
    lock_held w' = false /\
    outbox w' = SentRequestAccess address request :: outbox w /\
    self w' =
      set_replies_received (replies_received (self w) + 1)
        match result with
        | RpcOk response =>
            set_clock (snd (update (clock (self w)) (resp_lamport_timestamp response)))
                      (self w)
        | RpcError => self w
        end /\
    (lock_discipline state_field (accesses w) = true ->
     lock_discipline state_field (accesses w') = true).
Proof.
  intro H. open_world w H. run_M.
  destruct (stub_RequestAccess net address _ _) as [[g t] |]; run_M.
  - destruct g; run_M;
      (eexists; split; [reflexivity |]); cbn; repeat split; solve_discipline.
  - (eexists; split; [reflexivity |]); cbn; repeat split; solve_discipline.
Qed.

Lemma request_begin_total w :
  lock_held w = false ->
  exists w',
    request_begin w =
      Some ((request_number (self w) + 1, time (clock (self w)) + 1), w') /\
    lock_held w' = false /\ outbox w' = outbox w /\
    self w' =
      set_replies_received 0
        (set_request_timestamp (time (clock (self w)) + 1)
          (set_clock (snd (increment (clock (self w))))
            (set_request_number (request_number (self w) + 1)
              (set_requesting true (self w))))) /\
    (lock_discipline state_field (accesses w) = true ->
     lock_discipline state_field (accesses w') = true).
Proof.
  intro H. open_world w H. run_M.
  eexists; split; [reflexivity |]. cbn.
  repeat split. solve_discipline.
Qed.

Lemma release_begin_total w :
  lock_held w = false ->
  exists w',
    release_begin w =
      Some ((deferred_requests (self w), time (clock (self w)) + 1), w') /\
    lock_held w' = false /\ outbox w' = outbox w /\
    self w' =
      set_clock (snd (increment (clock (self w))))
        (set_deferred_requests [] (set_requesting false (self w))) /\
    (lock_discipline state_field (accesses w) = true ->
     lock_discipline state_field (accesses w') = true).
Proof.
  intro H. open_world w H. run_M.
  eexists; split; [reflexivity |]. cbn.
  repeat split. solve_discipline.
Qed.

Lemma send_release_notification_total net target address timestamp w :
  exists w',
    send_release_notification net target address timestamp w = Some (tt, w') /\
    lock_held w' = lock_held w /\ self w' = self w /\
    (lock_discipline state_field (accesses w) = true ->
     lock_discipline state_field (accesses w') = true).
Proof.
  destruct w as [c l tr con out]. run_M.
  destruct (stub_ReleaseAccess net address _ _) as [r |]; run_M;
    (eexists; split; [reflexivity |]); cbn; repeat split; solve_discipline.
Qed.

(** ** The polling loop *)

Lemma wait_for_replies_enough polls required w :
  lock_held w = false ->
  (replies_received (self w) >=? required) = true ->
  exists w',
    wait_for_replies (S polls) required w = Some (tt, w') /\
    lock_held w' = false /\ outbox w' = outbox w /\ self w' = self w /\
    (lock_discipline state_field (accesses w) = true ->
     lock_discipline state_field (accesses w') = true).
Proof.
  intros H Hge. open_world w H. cbn [self] in Hge.
  cbn [wait_for_replies]. run_M. rewrite Hge.
  eexists; split; [reflexivity |]. cbn.
  repeat split. solve_discipline.
Qed.

Lemma wait_for_replies_short polls required :
  forall w,
    (replies_received (self w) >=? required) = false ->
    wait_for_replies polls required w = None.
Proof.
  induction polls as [| polls IH]; intros w Hlt; [reflexivity |].
  destruct w as [c l tr con out]. cbn [self] in Hlt.
  cbn [wait_for_replies]. run_M.
  destruct l; [reflexivity |].
  rewrite Hlt. apply IH. exact Hlt.
Qed.

Lemma wait_for_replies_returned polls required w w' :
  lock_held w = false ->
  wait_for_replies polls required w = Some (tt, w') ->
  (replies_received (self w) >=? required) = true /\
  lock_held w' = false /\ outbox w' = outbox w /\ self w' = self w /\
  (lock_discipline state_field (accesses w) = true ->
   lock_discipline state_field (accesses w') = true).
Proof.
  intros H E.
  destruct (replies_received (self w) >=? required) eqn:Hge.
  - destruct polls as [| polls]; [discriminate |].
    destruct (wait_for_replies_enough polls required w H Hge)
      as (w1 & E1 & P).
    rewrite E1 in E. injection E as <-. split; [reflexivity | exact P].
  - rewrite (wait_for_replies_short polls required w Hge) in E. discriminate.
Qed.

(** ** Loops *)

Lemma bind_Some {A B} (m : M A) (f : A -> M B) w a w' :
  m w = Some (a, w') -> bind m f w = f a w'.
Proof. intro E. unfold bind. rewrite E. reflexivity. Qed.

Lemma for_each_invariant {A} (P : World -> Prop) (body : A -> M unit) :
  (forall x w, P w -> exists w', body x w = Some (tt, w') /\ P w') ->
  forall xs w, P w -> exists w', for_each xs body w = Some (tt, w') /\ P w'.
Proof.
  intros Hbody xs. induction xs as [| x xs IH]; intros w Hw.
  - exists w. split; [reflexivity | exact Hw].
  - destruct (Hbody x w Hw) as (w1 & E1 & H1).
    destruct (IH w1 H1) as (w2 & E2 & H2).
    exists w2. split; [| exact H2].
    cbn [for_each]. rewrite (bind_Some _ _ _ _ _ E1). exact E2.
Qed.

Lemma send_loop_total net num timestamp peers :
  forall w,
    lock_held w = false ->
    exists w',
      for_each peers (fun peer =>
        send_access_request net (fst peer) (snd peer) num timestamp) w
        = Some (tt, w') /\
      lock_held w' = false /\
      modifies [FClock; FRepliesReceived] (self w) (self w') /\
      replies_received (self w') =
        replies_received (self w) + Z.of_nat (List.length peers) /\
      outbox w' =
        rev (map (fun peer =>
                    SentRequestAccess (snd peer)
                      {| req_client_id := client_id (self w);
                         req_lamport_timestamp := timestamp;
                         req_request_number := num |}) peers)
        ++ outbox w /\
      (lock_discipline state_field (accesses w) = true ->
       lock_discipline state_field (accesses w') = true).
Proof.
  induction peers as [| peer peers IH]; intros w H.
  - exists w. cbn. repeat split; try reflexivity; try lia; auto.
    intros f _. apply unchanged_refl.
  - destruct (send_access_request_total net (fst peer) (snd peer) num timestamp w H)
      as (w1 & E1 & L1 & O1 & S1 & D1).
    destruct (IH w1 L1) as (w2 & E2 & L2 & M2 & R2 & O2 & D2).
    assert (M1 : modifies [FClock; FRepliesReceived] (self w) (self w1)).
    { rewrite S1. destruct (stub_RequestAccess _ _ _ _); solve_modifies. }
    assert (R1 : replies_received (self w1) = replies_received (self w) + 1).
    { rewrite S1. reflexivity. }
    exists w2. split.
    { cbn [for_each]. rewrite (bind_Some _ _ _ _ _ E1). exact E2. }
    split; [exact L2 |]. split; [eapply modifies_trans; eassumption |].
    split; [rewrite R2, R1; cbn [List.length]; lia |].
    split; [| auto].
    rewrite O2, O1. destruct M1 as [(Hid & _) _]. rewrite Hid.
    cbn [map rev]. rewrite <- app_assoc. reflexivity.
Qed.

Lemma bind_peek {A B} (proj : IntelligentClient -> A) (f : A -> M B) w :
  bind (peek proj) f w = f (proj (self w)) w.
Proof. reflexivity. Qed.

(** ** The two operations of the peer itself *)

(** Everything [request_critical_section] does before it starts to wait. *)
Lemma request_critical_section_prefix net polls w :
  lock_held w = false ->
  let request := {| req_client_id := client_id (self w);
                    req_lamport_timestamp := time (clock (self w)) + 1;
                    req_request_number := request_number (self w) + 1 |} in
  exists w3,
    request_critical_section net polls w =
      bind (wait_for_replies polls (Z.of_nat (List.length (other_clients (self w)))))
           (fun _ => log MsgAllReplies) w3 /\
    lock_held w3 = false /\
    modifies [FClock; FRequesting; FRequestTimestamp; FRequestNumber;
              FRepliesReceived] (self w) (self w3) /\
    requesting (self w3) = true /\
    request_timestamp (self w3) = time (clock (self w)) + 1 /\
    request_number (self w3) = request_number (self w) + 1 /\
    replies_received (self w3) = Z.of_nat (List.length (other_clients (self w))) /\
    outbox w3 =
      rev (map (fun peer => SentRequestAccess (snd peer) request)
               (other_clients (self w))) ++ outbox w /\
    (lock_discipline state_field (accesses w) = true ->
     lock_discipline state_field (accesses w3) = true).
Proof.
  intros H request.
  destruct (request_begin_total w H) as (w1 & E1 & L1 & O1 & S1 & D1).
  destruct (log_total (MsgRequesting (request_number (self w) + 1)
                                     (time (clock (self w)) + 1)) w1)
    as (w2 & E2 & S2 & L2 & O2 & D2).
  rewrite L1 in L2.
  destruct (send_loop_total net (request_number (self w) + 1)
              (time (clock (self w)) + 1) (other_clients (self w2)) w2 L2)
    as (w3 & E3 & L3 & M3 & R3 & O3 & D3).
  assert (P2 : other_clients (self w2) = other_clients (self w)).
  { rewrite S2, S1. reflexivity. }
  assert (P3 : other_clients (self w3) = other_clients (self w)).
  { destruct M3 as [(_ & _ & _ & Hp & _) _]. rewrite Hp. exact P2. }
  assert (M1 : modifies [FClock; FRequesting; FRequestTimestamp; FRequestNumber;
                         FRepliesReceived] (self w) (self w2)).
  { rewrite S2, S1. solve_modifies. }
  exists w3. split.
  { unfold request_critical_section.
    rewrite (bind_Some _ _ _ _ _ E1). cbn [fst snd].
    rewrite (bind_Some _ _ _ _ _ E2). rewrite bind_peek.
    rewrite (bind_Some _ _ _ _ _ E3). rewrite bind_peek.
    rewrite P3. reflexivity. }
  split; [exact L3 |].
  split.
  { eapply modifies_trans; [exact M1 |].
    eapply modifies_incl; [| exact M3].
    intros f [<- | [<- | []]]; cbn; tauto. }
  destruct M3 as [_ U3].
  split.
  { rewrite (U3 FRequesting) by (cbn; intuition discriminate).
    rewrite S2, S1. reflexivity. }
  split.
  { rewrite (U3 FRequestTimestamp) by (cbn; intuition discriminate).
    rewrite S2, S1. reflexivity. }
  split.
  { rewrite (U3 FRequestNumber) by (cbn; intuition discriminate).
    rewrite S2, S1. reflexivity. }
  split.
  { rewrite R3, P2, S2, S1. cbn. reflexivity. }
  split; [| auto].
  rewrite O3, O2, O1, P2. subst request.
  replace (client_id (self w2)) with (client_id (self w))
    by (rewrite S2, S1; reflexivity).
  reflexivity.
Qed.

Lemma request_critical_section_total net polls w :
  lock_held w = false ->
  let request := {| req_client_id := client_id (self w);
                    req_lamport_timestamp := time (clock (self w)) + 1;
                    req_request_number := request_number (self w) + 1 |} in
  exists w',
    request_critical_section net (S polls) w = Some (tt, w') /\
    lock_held w' = false /\
    modifies [FClock; FRequesting; FRequestTimestamp; FRequestNumber;
              FRepliesReceived] (self w) (self w') /\
    requesting (self w') = true /\
    request_timestamp (self w') = time (clock (self w)) + 1 /\
    request_number (self w') = request_number (self w) + 1 /\
    replies_received (self w') = Z.of_nat (List.length (other_clients (self w))) /\
    outbox w' =
      rev (map (fun peer => SentRequestAccess (snd peer) request)
               (other_clients (self w))) ++ outbox w /\
    (lock_discipline state_field (accesses w) = true ->
     lock_discipline state_field (accesses w') = true).
Proof.
  intros H request.
  destruct (request_critical_section_prefix net (S polls) w H)
    as (w3 & E & L3 & M3 & Q3 & T3 & N3 & R3 & O3 & D3).
  assert (Hge : (replies_received (self w3)
                 >=? Z.of_nat (List.length (other_clients (self w)))) = true).
  { rewrite R3. apply Z.geb_le. lia. }
  destruct (wait_for_replies_enough polls _ w3 L3 Hge)
    as (w4 & E4 & L4 & O4 & S4 & D4).
  destruct (log_total MsgAllReplies w4) as (w5 & E5 & S5 & L5 & O5 & D5).
  exists w5. split.
  { rewrite E. rewrite (bind_Some _ _ _ _ _ E4). exact E5. }
  rewrite S5, S4, L5, L4, O5, O4.
  repeat split; try assumption; try apply M3; auto.
Qed.

Lemma request_critical_section_zero net w :
  lock_held w = false -> request_critical_section net O w = None.
Proof.
  intro H.
  destruct (request_critical_section_prefix net O w H) as (w3 & E & _).
  rewrite E. reflexivity.
Qed.

Lemma release_critical_section_total net w :
  lock_held w = false ->
  exists w',
    release_critical_section net w = Some (tt, w') /\
    lock_held w' = false /\
    self w' =
      set_clock (snd (increment (clock (self w))))
        (set_deferred_requests [] (set_requesting false (self w))) /\
    (lock_discipline state_field (accesses w) = true ->
     lock_discipline state_field (accesses w') = true).
Proof.
  intro H.
  destruct (release_begin_total w H) as (w1 & E1 & L1 & O1 & S1 & D1).
  destruct (log_total (MsgReleasing (time (clock (self w)) + 1)) w1)
    as (w2 & E2 & S2 & L2 & O2 & D2).
  rewrite L1 in L2.
  pose (P := fun v : World =>
    self v = self w2 /\ lock_held v = false /\
    (lock_discipline state_field (accesses w) = true ->
     lock_discipline state_field (accesses v) = true)).
  assert (P2 : P w2) by (repeat split; auto).
  destruct (for_each_invariant P
              (fun peer => send_release_notification net (fst peer) (snd peer)
                             (time (clock (self w)) + 1))) with
    (xs := other_clients (self w2)) (w := w2) as (w3 & E3 & P3); [| exact P2 |].
  { intros x v (Sv & Lv & Dv).
    destruct (send_release_notification_total net (fst x) (snd x)
                (time (clock (self w)) + 1) v) as (v' & Ev & Lv' & Sv' & Dv').
    exists v'. split; [exact Ev |]. repeat split; try congruence. auto. }
  destruct (for_each_invariant P
              (fun entry : Z * Z => log (MsgGrantingDeferred (fst entry)))) with
    (xs := deferred_requests (self w)) (w := w3) as (w4 & E4 & P4); [| exact P3 |].
  { intros x v (Sv & Lv & Dv).
    destruct (log_total (MsgGrantingDeferred (fst x)) v)
      as (v' & Ev & Sv' & Lv' & _ & Dv').
    exists v'. split; [exact Ev |]. repeat split; try congruence. auto. }
  destruct P4 as (S4 & L4 & D4).
  exists w4. split.
  { unfold release_critical_section.
    rewrite (bind_Some _ _ _ _ _ E1). cbn [fst snd].
    rewrite (bind_Some _ _ _ _ _ E2). rewrite bind_peek.
    rewrite (bind_Some _ _ _ _ _ E3). exact E4. }
  split; [exact L4 |]. split; [| exact D4].
  rewrite S4, S2, S1. reflexivity.
Qed.

(** ** Events *)

Lemma queue_invariant_requesting c c' :
  requesting c' = true -> queue_invariant c -> queue_invariant c'.
Proof. intros H _ _. exact H. Qed.

Lemma queue_invariant_emptied c c' :
  deferred_requests c' = [] -> queue_invariant c -> queue_invariant c'.
Proof. intros H _ Hne. rewrite H in Hne. contradiction. Qed.

Lemma queue_invariant_kept c c' :
  requesting c' = requesting c ->
  deferred_requests c' = deferred_requests c ->
  queue_invariant c -> queue_invariant c'.
Proof. unfold queue_invariant. intros -> ->. auto. Qed.

(** What an event that returns has done. *)
Lemma perform_returned e w w' :
  lock_held w = false ->
  perform e w = Some (tt, w') ->
  lock_held w' = false /\
  queue_step e (self w) (self w') /\
  (queue_invariant (self w) -> queue_invariant (self w')) /\
  (lock_discipline state_field (accesses w) = true ->
   lock_discipline state_field (accesses w') = true).
Proof.
  intros H E. destruct e; cbn [perform queue_step] in *.
  - destruct (RequestAccess_total request w H)
      as (resp & w1 & E1 & L1 & _ & _ & S1 & _ & D1).
    rewrite (bind_Some _ _ _ _ _ E1) in E. injection E as <-.
    split; [exact L1 |]. rewrite S1. split; [| split; [| exact D1]].
    + destruct (defers (self w) request); reflexivity.
    + destruct (defers (self w) request) eqn:Hd.
      * apply queue_invariant_requesting. cbn.
        unfold defers in Hd. apply andb_prop in Hd. apply Hd.
      * apply queue_invariant_kept; reflexivity.
  - destruct (ReleaseAccess_total request w H) as (w1 & E1 & L1 & _ & S1 & D1).
    rewrite (bind_Some _ _ _ _ _ E1) in E. injection E as <-.
    split; [exact L1 |]. rewrite S1. split; [reflexivity |].
    split; [| exact D1]. apply queue_invariant_kept; reflexivity.
  - destruct polls as [| polls].
    { rewrite (request_critical_section_zero net w H) in E. discriminate. }
    destruct (request_critical_section_total net polls w H)
      as (w1 & E1 & L1 & [_ U1] & Q1 & _ & _ & _ & _ & D1).
    rewrite E1 in E. injection E as <-.
    split; [exact L1 |]. split; [| split; [| exact D1]].
    + apply (U1 FDeferredRequests). cbn. intuition discriminate.
    + apply queue_invariant_requesting. exact Q1.
  - destruct (release_critical_section_total net w H) as (w1 & E1 & L1 & S1 & D1).
    rewrite E1 in E. injection E as <-.
    split; [exact L1 |]. rewrite S1. split; [reflexivity |].
    split; [| exact D1]. apply queue_invariant_emptied. reflexivity.
  - destruct (request_begin_total w H) as (w1 & E1 & L1 & _ & S1 & D1).
    rewrite (bind_Some _ _ _ _ _ E1) in E. injection E as <-.
    split; [exact L1 |]. rewrite S1. split; [reflexivity |].
    split; [| exact D1]. apply queue_invariant_requesting. reflexivity.
  - destruct (send_access_request_total net target_client_id target_address
                request_num timestamp w H) as (w1 & E1 & L1 & _ & S1 & D1).
    rewrite E1 in E. injection E as <-.
    split; [exact L1 |]. rewrite S1.
    destruct (stub_RequestAccess _ _ _ _);
      (split; [reflexivity |]); (split; [| exact D1]);
      apply queue_invariant_kept; reflexivity.
  - destruct (wait_for_replies_returned polls required_replies w w' H E)
      as (_ & L1 & _ & S1 & D1).
    split; [exact L1 |]. rewrite S1. split; [reflexivity |].
    split; [| exact D1]. auto.
  - destruct (release_begin_total w H) as (w1 & E1 & L1 & _ & S1 & D1).
    rewrite (bind_Some _ _ _ _ _ E1) in E. injection E as <-.
    split; [exact L1 |]. rewrite S1. split; [reflexivity |].
    split; [| exact D1]. apply queue_invariant_emptied. reflexivity.
  - destruct (send_release_notification_total net target_client_id
                target_address timestamp w) as (w1 & E1 & L1 & S1 & D1).
    rewrite E1 in E. injection E as <-.
    split; [congruence |]. rewrite S1. split; [reflexivity |].
    split; [| exact D1]. auto.
Qed.

Lemma run_invariant events :
  forall w w',
    lock_held w = false -> queue_invariant (self w) ->
    run events w = Some w' ->
    lock_held w' = false /\ queue_invariant (self w').
Proof.
  induction events as [| e events IH]; intros w w' L Q E; cbn [run] in E.
  - injection E as <-. split; assumption.
  - destruct (perform e w) as [[[] w1] |] eqn:E1; [| discriminate].
    destruct (perform_returned e w w1 L E1) as (L1 & _ & Q1 & _).
    exact (IH w1 w' L1 (Q1 Q) E).
Qed.

(** ** The clock *)

Lemma clock_call_lt c k : time c < time (clock_call c k).
Proof. destruct k; cbn; lia. Qed.

Lemma clock_calls_app c ks1 ks2 :
  clock_calls c (ks1 ++ ks2) = clock_calls (clock_calls c ks1) ks2.
Proof. unfold clock_calls. apply fold_left_app. Qed.

Lemma clock_calls_le ks : forall c, time c <= time (clock_calls c ks).
Proof.
  induction ks as [| k ks IH]; intro c; cbn.
  - lia.
  - specialize (IH (clock_call c k)). unfold clock_calls in IH.
    pose proof (clock_call_lt c k). lia.
Qed.

(** C5: on a clock at time [t], [increment] sets the time to [t + 1] and
    returns it, [update x] sets it to [max t x + 1] and returns it, and
    [get_time] returns [t] and leaves the clock as it is; in every sequence
    of [increment]/[update] calls, with any integers as arguments, each call
    strictly increases the time and the time never decreases. *)
Theorem lamport_clock_monotone (c : LamportClock) (x : Z)
    (before after : list ClockCall) (k : ClockCall) :
  increment c = (time c + 1, {| time := time c + 1 |}) /\
  update c x = (Z.max (time c) x + 1, {| time := Z.max (time c) x + 1 |}) /\
  get_time c = (time c, c) /\
  time (clock_calls c before) < time (clock_calls c (before ++ [k])) /\
  time (clock_calls c before) <= time (clock_calls c (before ++ after)).
Proof.
  repeat split.
  - rewrite clock_calls_app. apply clock_call_lt.
  - rewrite clock_calls_app. apply clock_calls_le.
Qed.

(** ** The order on requests *)

(** C4: the comparison of [(timestamp, client_id)] pairs made by the grant
    decision is the relation [t1 < t2 \/ (t1 = t2 /\ p1 < p2)]; it is
    irreflexive, transitive and asymmetric, and two records with distinct
    peer ids (indeed any two distinct records) are comparable, so that no
    two of them compare equal. *)
Theorem tuple_lt_strict_total_order (a b c : Z * Z) :
  (tuple_lt a b = true <-> record_lt a b) /\
  tuple_lt a a = false /\
  (tuple_lt a b = true -> tuple_lt b c = true -> tuple_lt a c = true) /\
  (tuple_lt a b = true -> tuple_lt b a = false) /\
  (snd a <> snd b -> tuple_lt a b = true \/ tuple_lt b a = true) /\
  (a <> b -> tuple_lt a b = true \/ tuple_lt b a = true).
Proof.
  split; [apply tuple_lt_iff |].
  split; [apply tuple_lt_false_iff; unfold record_lt; lia |].
  split; [rewrite !tuple_lt_iff; unfold record_lt; lia |].
  split; [rewrite tuple_lt_iff, tuple_lt_false_iff; unfold record_lt; lia |].
  split; [rewrite !tuple_lt_iff; unfold record_lt; lia |].
  intro Hne. rewrite !tuple_lt_iff. unfold record_lt.
  destruct a as [t1 p1], b as [t2 p2]; cbn.
  assert (t1 <> t2 \/ p1 <> p2) by
    (destruct (Z.eq_dec t1 t2); [right; congruence | left; assumption]).
  lia.
Qed.

Lemma tuple_lt_strict_total_order_witness :
  tuple_lt (5, 1) (5, 2) = true /\ tuple_lt (5, 2) (7, 3) = true /\
  tuple_lt (5, 1) (7, 3) = true /\ tuple_lt (5, 2) (5, 1) = false /\
  (tuple_lt (5, 1) (5, 2) = true \/ tuple_lt (5, 2) (5, 1) = true).
Proof.
  pose proof (tuple_lt_strict_total_order (5, 1) (5, 2) (7, 3))
    as (_ & _ & Htrans & Hasym & Htotal & _).
  split; [reflexivity |]. split; [reflexivity |].
  split; [apply Htrans; reflexivity |].
  split; [apply Hasym; reflexivity |].
  apply Htotal. cbn. discriminate.
Defined.

(** ** The grant decision *)

(** C1: [RequestAccess] always returns a response.  It grants exactly when
    the receiving peer is not requesting or the remote
    [(timestamp, client_id)] is below the peer's own
    [(request_timestamp, client_id)]; when it grants the deferred queue is
    left as it is, otherwise the remote request is appended to it and the
    response says [access_granted = false].  The response's timestamp is
    what [clock.increment()] returns after [clock.update(remote timestamp)],
    and the lock is free again afterwards. *)
Theorem RequestAccess_decision (request : AccessRequest) (w : World) :
  lock_held w = false ->
  let c := self w in
  let remote := (req_lamport_timestamp request, req_client_id request) in
  let own := (request_timestamp c, client_id c) in
  let updated := snd (update (clock c) (req_lamport_timestamp request)) in
  exists response w',
    RequestAccess request w = Some (response, w') /\
    (access_granted response = true <->
     requesting c = false \/ record_lt remote own) /\
    (access_granted response = true ->
     deferred_requests (self w') = deferred_requests c) /\
    (access_granted response = false ->
     deferred_requests (self w') =
     deferred_requests c ++ [(req_client_id request, req_lamport_timestamp request)]) /\
    resp_lamport_timestamp response = fst (increment updated) /\
    clock (self w') = snd (increment updated) /\
    lock_held w' = false.
Proof.
  intros H c remote own updated.
  destruct (RequestAccess_total request w H)
    as (response & w' & E & L & _ & G & S & T & _).
  exists response, w'. split; [exact E |].
  rewrite G, S. fold c. unfold defers.
  change (req_lamport_timestamp request, req_client_id request) with remote.
  change (request_timestamp c, client_id c) with own.
  pose proof (tuple_lt_iff remote own) as Hiff.
  assert (Hfree : forall q,
            clock (set_clock (snd (increment updated)) q) = snd (increment updated))
    by reflexivity.
  destruct (requesting c) eqn:R; [destruct (tuple_lt remote own) eqn:Lt |];
    cbn [andb negb].
  - (* requesting, and the remote request is below the own one: grant *)
    split; [split; [intros _; right; apply Hiff; reflexivity | reflexivity] |].
    split; [reflexivity |]. split; [discriminate |].
    split; [exact T |]. split; [apply Hfree | exact L].
  - (* requesting, and the remote request is not below: defer *)
    split.
    { split; [discriminate |].
      intros [X | X]; [discriminate X |].
      apply Hiff in X. discriminate X. }
    split; [discriminate |]. split; [reflexivity |].
    split; [exact T |]. split; [apply Hfree | exact L].
  - (* not requesting: grant *)
    split; [split; [intros _; left; reflexivity | reflexivity] |].
    split; [reflexivity |]. split; [discriminate |].
    split; [exact T |]. split; [apply Hfree | exact L].
Qed.

Lemma RequestAccess_decision_witness :
  lock_held peer_A = false /\
  exists response w',
    RequestAccess request_of_B peer_A = Some (response, w') /\
    access_granted response = false /\
    deferred_requests (self w') = [(2, 5)] /\
    resp_lamport_timestamp response = 7.
Proof.
  split; [reflexivity |].
  destruct (RequestAccess_decision request_of_B peer_A eq_refl)
    as (response & w' & E & G & _ & Q & T & _).
  exists response, w'. split; [exact E |].
  assert (Hg : access_granted response = false).
  { destruct (access_granted response); [| reflexivity].
    destruct (proj1 G eq_refl) as [Hr | Hlt].
    - discriminate Hr.
    - unfold record_lt in Hlt. cbn in Hlt. lia. }
  split; [exact Hg |]. split; [exact (Q Hg) | exact T].
Defined.

(** ** The tie at timestamp 5 *)

(** The tie state is the one [request_critical_section] sets up on a peer
    whose clock stands at 4. *)
Lemma tie_peer_is_requesting id peers :
  option_map (fun p => self (snd p))
    (request_begin
       (World_init (set_clock {| time := 4 |}
          (IntelligentClient_init id (50051 + id) "localhost:50051" peers))))
  = Some (self (tie_peer id peers)).
Proof. reflexivity. Qed.

(** C3, as stated, does not hold: it is not the case that B answers A's
    request (5,1) with [access_granted = false] after queueing it while A
    answers B's request (5,2) with [access_granted = true]. *)
Lemma tie_as_stated_fails :
  ~ (granted (RequestAccess request_of_A peer_B) = Some false /\
     queue_after (RequestAccess request_of_A peer_B) = Some [(1, 5)] /\
     granted (RequestAccess request_of_B peer_A) = Some true).
Proof. vm_compute. intros (H & _). discriminate H. Qed.

(** C3, amended: in the two-peer tie at timestamp 5, B (id 2), upon
    receiving A's request (5,1) while itself requesting, grants it and
    leaves its deferred queue empty, since (5,1) is below B's own (5,2); A
    (id 1), upon receiving B's request (5,2), defers it: it appends the entry
    [(client_id, timestamp) = (2, 5)] to its deferred queue and returns
    [access_granted = false]. *)
Theorem tie_at_timestamp_5 :
  granted (RequestAccess request_of_A peer_B) = Some true /\
  queue_after (RequestAccess request_of_A peer_B) = Some [] /\
  granted (RequestAccess request_of_B peer_A) = Some false /\
  queue_after (RequestAccess request_of_B peer_A) = Some [(2, 5)].
Proof. repeat split. Qed.

(** ** Counting replies *)

(** C2: whatever one outbound access request comes back with (a grant, a
    deferral, or [RpcError]), [send_access_request] returns with
    [replies_received] one higher, having updated the clock only from a
    response.  The wait of [request_critical_section] is over at the first
    look that finds [replies_received >= required_replies], and never
    before; and [request_critical_section] as a whole returns at its first
    look, with [replies_received] equal to the number of other peers,
    whatever the peers answered. *)
Theorem replies_counted (net : Network) (target : Z) (address : string)
    (num timestamp : Z) (polls : nat) (required : Z) (w : World) :
  lock_held w = false ->
  let request := {| req_client_id := client_id (self w);
                    req_lamport_timestamp := timestamp;
                    req_request_number := num |} in
  (exists w1,
     send_access_request net target address num timestamp w = Some (tt, w1) /\
     replies_received (self w1) = replies_received (self w) + 1 /\
     self w1 =
       set_replies_received (replies_received (self w) + 1)
         match stub_RequestAccess net address request (List.length (outbox w)) with
         | RpcOk response =>
             set_clock (snd (update (clock (self w)) (resp_lamport_timestamp response)))
                       (self w)
         | RpcError => self w
         end /\
     lock_held w1 = false) /\
  (required <= replies_received (self w) ->
   exists w2,
     wait_for_replies (S polls) required w = Some (tt, w2) /\ self w2 = self w) /\
  (replies_received (self w) < required ->
   wait_for_replies polls required w = None) /\
  (exists w3,
     request_critical_section net (S polls) w = Some (tt, w3) /\
     replies_received (self w3) = Z.of_nat (List.length (other_clients (self w))) /\
     lock_held w3 = false).
Proof.
  intros H request. repeat apply conj.
  - destruct (send_access_request_total net target address num timestamp w H)
      as (w1 & E & L & _ & S & _).
    exists w1. split; [exact E |]. split; [rewrite S; reflexivity |].
    split; [exact S | exact L].
  - intro Hge.
    destruct (wait_for_replies_enough polls required w H) as (w2 & E & _ & _ & S & _).
    { apply Z.geb_le. exact Hge. }
    exists w2. split; [exact E | exact S].
  - intro Hlt. apply wait_for_replies_short.
    destruct (Z.geb_spec (replies_received (self w)) required); [lia | reflexivity].
  - destruct (request_critical_section_total net polls w H)
      as (w3 & E & L & _ & _ & _ & _ & R & _).
    exists w3. split; [exact E |]. split; [exact R | exact L].
Qed.

Lemma replies_counted_witness :
  lock_held client_1 = false /\
  (exists w1,
     send_access_request unreachable 2 "localhost:50053" 1 1 client_1 = Some (tt, w1) /\
     replies_received (self w1) = 1) /\
  (exists w3,
     request_critical_section deferring 1 client_1 = Some (tt, w3) /\
     replies_received (self w3) = 2).
Proof.
  split; [reflexivity |].
  destruct (replies_counted deferring 2 "localhost:50053" 1 1 0 2 client_1 eq_refl)
    as (_ & _ & _ & (w3 & E3 & R3 & _)).
  destruct (replies_counted unreachable 2 "localhost:50053" 1 1 0 2 client_1 eq_refl)
    as ((w1 & E1 & R1 & _) & _).
  split.
  - exists w1. split; [exact E1 | exact R1].
  - exists w3. split; [exact E3 | exact R3].
Defined.

(** C6: a peer with no other peer configured sends no access request and
    [request_critical_section] returns at its first look at the counter:
    zero replies are required and [replies_received] was just reset to 0. *)
Theorem lone_peer_quorum (net : Network) (polls : nat) (w : World) :
  lock_held w = false ->
  other_clients (self w) = [] ->
  exists w',
    request_critical_section net (S polls) w = Some (tt, w') /\
    outbox w' = outbox w /\
    replies_received (self w') = 0 /\
    requesting (self w') = true /\
    lock_held w' = false.
Proof.
  intros H Hp.
  destruct (request_critical_section_total net polls w H)
    as (w' & E & L & _ & Q & _ & _ & R & O & _).
  rewrite Hp in R, O.
  exists w'. repeat split; assumption.
Qed.

Lemma lone_peer_quorum_witness :
  lock_held lone_client = false /\
  other_clients (self lone_client) = [] /\
  exists w',
    request_critical_section unreachable 1 lone_client = Some (tt, w') /\
    outbox w' = [] /\ replies_received (self w') = 0.
Proof.
  split; [reflexivity |]. split; [reflexivity |].
  destruct (lone_peer_quorum unreachable 0 lone_client eq_refl eq_refl)
    as (w' & E & O & R & _).
  exists w'. split; [exact E |]. split; [exact O | exact R].
Defined.

(** ** Release *)

(** C7: [release_critical_section] called while [requesting] is already
    false returns, leaving [requesting] false and the deferred queue empty;
    besides the clock, which advances by one, and the deferred queue it
    modifies no attribute; and a second release right after the first
    leaves [requesting] and the deferred queue as the first one left them. *)
Theorem release_when_idle (net net' : Network) (w : World) :
  lock_held w = false ->
  requesting (self w) = false ->
  exists w1 w2,
    release_critical_section net w = Some (tt, w1) /\
    requesting (self w1) = false /\
    deferred_requests (self w1) = [] /\
    modifies [FClock; FDeferredRequests] (self w) (self w1) /\
    clock (self w1) = snd (increment (clock (self w))) /\
    release_critical_section net' w1 = Some (tt, w2) /\
    requesting (self w2) = requesting (self w1) /\
    deferred_requests (self w2) = deferred_requests (self w1).
Proof.
  intros H Hr.
  destruct (release_critical_section_total net w H) as (w1 & E1 & L1 & S1 & _).
  destruct (release_critical_section_total net' w1 L1) as (w2 & E2 & _ & S2 & _).
  exists w1, w2.
  split; [exact E1 |].
  split; [rewrite S1; reflexivity |].
  split; [rewrite S1; reflexivity |].
  split.
  { rewrite S1. split; [repeat split; reflexivity |].
    intros f Hf. destruct f; cbn; try reflexivity;
      try (exfalso; apply Hf; cbn; tauto).
    symmetry. exact Hr. }
  split; [rewrite S1; reflexivity |].
  split; [exact E2 |].
  split; rewrite S2, S1; reflexivity.
Qed.

Lemma release_when_idle_witness :
  lock_held client_1 = false /\
  requesting (self client_1) = false /\
  exists w1 w2,
    release_critical_section unreachable client_1 = Some (tt, w1) /\
    requesting (self w1) = false /\
    deferred_requests (self w1) = [] /\
    release_critical_section deferring w1 = Some (tt, w2) /\
    requesting (self w2) = false /\
    deferred_requests (self w2) = [].
Proof.
  split; [reflexivity |]. split; [reflexivity |].
  destruct (release_when_idle unreachable deferring client_1 eq_refl eq_refl)
    as (w1 & w2 & E1 & R1 & Q1 & _ & _ & E2 & R2 & Q2).
  exists w1, w2. rewrite R2, Q2.
  repeat split; assumption.
Defined.

(** C8: [ReleaseAccess] returns [acknowledged = true]; it updates the
    clock with the message's timestamp (and increments it once more for the
    response), and leaves [requesting], [request_timestamp],
    [request_number], [replies_received] and the deferred queue, as every
    attribute other than the clock, as they were. *)
Theorem ReleaseAccess_frame (request : ReleaseMessage) (w : World) :
  lock_held w = false ->
  exists w',
    ReleaseAccess request w = Some ({| acknowledged := true |}, w') /\
    clock (self w') =
      snd (increment (snd (update (clock (self w)) (rel_lamport_timestamp request)))) /\
    requesting (self w') = requesting (self w) /\
    request_timestamp (self w') = request_timestamp (self w) /\
    request_number (self w') = request_number (self w) /\
    replies_received (self w') = replies_received (self w) /\
    deferred_requests (self w') = deferred_requests (self w) /\
    modifies [FClock] (self w) (self w') /\
    lock_held w' = false.
Proof.
  intro H.
  destruct (ReleaseAccess_total request w H) as (w' & E & L & _ & S & _).
  exists w'. split; [exact E |]. rewrite S.
  repeat split; try reflexivity; try exact L.
  intros f Hf. destruct f; cbn; try reflexivity.
  exfalso. apply Hf. cbn. tauto.
Qed.

Lemma ReleaseAccess_frame_witness :
  lock_held peer_B = false /\
  exists w',
    ReleaseAccess {| rel_client_id := 1; rel_lamport_timestamp := 9;
                     rel_request_number := 1 |} peer_B
      = Some ({| acknowledged := true |}, w') /\
    time (clock (self w')) = 11 /\
    requesting (self w') = true /\
    request_timestamp (self w') = 5 /\
    deferred_requests (self w') = [].
Proof.
  split; [reflexivity |].
  destruct (ReleaseAccess_frame
              {| rel_client_id := 1; rel_lamport_timestamp := 9;
                 rel_request_number := 1 |} peer_B eq_refl)
    as (w' & E & K & R & T & _ & _ & Q & _).
  exists w'. rewrite K, R, T, Q.
  repeat split. exact E.
Defined.

(** ** The deferred queue *)

(** C9: in every state [w] the peer reaches from its initial state by any
    sequence of events (its own request and release, whole or piece by
    piece, and the two inbound handlers), a non-empty deferred queue means
    that [requesting] is true, and so it is after one more event.  That
    event changes the queue in one way only: [RequestAccess] appends the
    [(client_id, timestamp)] of the incoming request when the peer is
    requesting and the incoming [(timestamp, client_id)] is not below its
    own [(request_timestamp, client_id)], and leaves the queue alone
    otherwise; a release empties it; every other event leaves it as it is. *)
Theorem deferred_queue_invariant (id port : Z) (address : string)
    (peers : list (Z * string)) (events : list Event) (e : Event) (w w' : World) :
  run events (World_init (IntelligentClient_init id port address peers)) = Some w ->
  perform e w = Some (tt, w') ->
  (deferred_requests (self w) <> [] -> requesting (self w) = true) /\
  (deferred_requests (self w') <> [] -> requesting (self w') = true) /\
  match e with
  | EvRequestAccess request =>
      if requesting (self w) &&
         negb (tuple_lt (req_lamport_timestamp request, req_client_id request)
                        (request_timestamp (self w), client_id (self w)))
      then deferred_requests (self w') =
           deferred_requests (self w) ++
           [(req_client_id request, req_lamport_timestamp request)]
      else deferred_requests (self w') = deferred_requests (self w)
  | EvReleaseCriticalSection _ | EvReleaseBegin => deferred_requests (self w') = []
  | _ => deferred_requests (self w') = deferred_requests (self w)
  end.
Proof.
  intros Hrun Hstep.
  assert (Q0 : queue_invariant (IntelligentClient_init id port address peers)).
  { intro Hne. exfalso. apply Hne. reflexivity. }
  destruct (run_invariant events
              (World_init (IntelligentClient_init id port address peers)) w
              eq_refl Q0 Hrun) as (L & Q).
  destruct (perform_returned e w w' L Hstep) as (_ & Hq & Q' & _).
  split; [exact Q |]. split; [exact (Q' Q) |]. exact Hq.
Qed.

Lemma deferred_queue_invariant_witness :
  exists w w',
    run [EvRequestBegin;
         EvRequestAccess {| req_client_id := 3; req_lamport_timestamp := 7;
                            req_request_number := 1 |}] client_1 = Some w /\
    perform (EvReleaseCriticalSection unreachable) w = Some (tt, w') /\
    deferred_requests (self w) = [(3, 7)] /\
    (deferred_requests (self w) <> [] -> requesting (self w) = true) /\
    deferred_requests (self w') = [].
Proof.
  eexists. eexists.
  split; [vm_compute; reflexivity |].
  split; [vm_compute; reflexivity |].
  split; [reflexivity |].
  split.
  - refine (proj1 (deferred_queue_invariant 1 50052 "localhost:50051"
                     [(2, "localhost:50053"%string); (3, "localhost:50054"%string)]
                     [EvRequestBegin;
                      EvRequestAccess {| req_client_id := 3;
                                         req_lamport_timestamp := 7;
                                         req_request_number := 1 |}]
                     (EvReleaseCriticalSection unreachable) _ _ _ _));
      vm_compute; reflexivity.
  - refine (proj2 (proj2 (deferred_queue_invariant 1 50052 "localhost:50051"
                     [(2, "localhost:50053"%string); (3, "localhost:50054"%string)]
                     [EvRequestBegin;
                      EvRequestAccess {| req_client_id := 3;
                                         req_lamport_timestamp := 7;
                                         req_request_number := 1 |}]
                     (EvReleaseCriticalSection unreachable) _ _ _ _)));
      vm_compute; reflexivity.
Defined.

(** ** Lock discipline *)

(** C10, as stated, does not hold for the clock: [RequestAccess] calls
    [clock.update] before it takes the lock, and the first log line of
    [request_critical_section] reads the clock after the lock was released.
    Both runs leave an unlocked clock access in the trace. *)
Lemma clock_accessed_without_lock :
  (exists response w',
     RequestAccess request_of_A peer_B = Some (response, w') /\
     In {| acc_field := FClock; acc_kind := Write; acc_locked := false |}
        (accesses w') /\
     lock_discipline shared_field (accesses w') = false) /\
  (exists w',
     request_critical_section unreachable 1 lone_client = Some (tt, w') /\
     In {| acc_field := FClock; acc_kind := Read; acc_locked := false |}
        (accesses w') /\
     lock_discipline shared_field (accesses w') = false).
Proof.
  split.
  - eexists. eexists. split; [vm_compute; reflexivity |].
    split; [cbn; tauto | reflexivity].
  - eexists. split; [vm_compute; reflexivity |].
    split; [cbn; tauto | reflexivity].
Qed.

(** C10, amended: every read or write of [requesting],
    [request_timestamp], [replies_received] and the deferred queue made by
    the inbound handlers, by the request and release paths and by the log
    lines they print is made while the lock is held: an event started with
    the lock free, after a trace in which all of these accesses were made
    under the lock, leaves such a trace.  (The clock is not covered.) *)
Theorem state_accessed_under_lock (e : Event) (w w' : World) :
  lock_held w = false ->
  lock_discipline state_field (accesses w) = true ->
  perform e w = Some (tt, w') ->
  lock_discipline state_field (accesses w') = true.
Proof.
  intros L D E.
  destruct (perform_returned e w w' L E) as (_ & _ & _ & D').
  exact (D' D).
Qed.

Lemma state_accessed_under_lock_witness :
  exists w',
    perform (EvRequestCriticalSection deferring 1) client_1 = Some (tt, w') /\
    accesses w' <> [] /\
    lock_discipline state_field (accesses w') = true.
Proof.
  eexists.
  split; [vm_compute; reflexivity |].
  split; [discriminate |].
  refine (state_accessed_under_lock (EvRequestCriticalSection deferring 1)
            client_1 _ eq_refl eq_refl _).
  vm_compute. reflexivity.
Defined.

(** * Further properties of the code *)

(** ** The clock over a sequence of calls *)

Lemma clock_calls_cons c k ks :
  clock_calls c (k :: ks) = clock_calls (clock_call c k) ks.
Proof. reflexivity. Qed.

Lemma clock_calls_progress ks :
  forall c,
    time c + Z.of_nat (List.length ks) <= time (clock_calls c ks) /\
    (forall x, In x (received_times ks) -> x < time (clock_calls c ks)).
Proof.
  induction ks as [| k ks IH]; intro c.
  - split; [cbn; lia | intros x []].
  - rewrite clock_calls_cons. destruct (IH (clock_call c k)) as [Hn Hx].
    pose proof (clock_call_lt c k) as Hk.
    split; [cbn [List.length]; lia |].
    intros x Hin. unfold received_times in Hin. cbn [flat_map] in Hin.
    apply in_app_or in Hin. destruct Hin as [Hin | Hin]; [| apply Hx, Hin].
    destruct k as [| y]; [destruct Hin |].
    destruct Hin as [<- | []].
    pose proof (clock_calls_le ks (clock_call c (CallUpdate y))) as Hle.
    cbn in Hle |- *. unfold clock_calls in Hle |- *. cbn in Hle |- *. lia.
Qed.



(** ** Two requesting peers *)

Lemma tuple_lt_swap a b :
  snd a <> snd b -> tuple_lt b a = negb (tuple_lt a b).
Proof.
  intro Hne.
  destruct (tuple_lt a b) eqn:Hab; cbn.
  - apply tuple_lt_false_iff. apply tuple_lt_iff in Hab.
    unfold record_lt in *. lia.
  - apply tuple_lt_iff. apply tuple_lt_false_iff in Hab.
    unfold record_lt in *. lia.
Qed.

(** X2: of two peers that are both requesting, with distinct ids, exactly
    one grants the other's request: each handler returns, the two answers
    are opposite, and the peer that is granted is the one whose
    [(request_timestamp, client_id)] is the lower. *)
Theorem exactly_one_grants (a b : World) :
  lock_held a = false -> lock_held b = false ->
  requesting (self a) = true -> requesting (self b) = true ->
  client_id (self a) <> client_id (self b) ->
  exists answer_a a' answer_b b',
    RequestAccess (own_request b) a = Some (answer_a, a') /\
    RequestAccess (own_request a) b = Some (answer_b, b') /\
    access_granted answer_a = negb (access_granted answer_b) /\
    (access_granted answer_b = true <->
     record_lt (request_timestamp (self a), client_id (self a))
               (request_timestamp (self b), client_id (self b))).
Proof.
  intros La Lb Ra Rb Hid.
  destruct (RequestAccess_total (own_request b) a La)
    as (ra & a' & Ea & _ & _ & Ga & _).
  destruct (RequestAccess_total (own_request a) b Lb)
    as (rb & b' & Eb & _ & _ & Gb & _).
  exists ra, a', rb, b'. split; [exact Ea |]. split; [exact Eb |].
  rewrite Ga, Gb. unfold defers, own_request. cbn [req_lamport_timestamp req_client_id].
  rewrite Ra, Rb. cbn [andb]. rewrite !negb_involutive.
  split.
  - apply tuple_lt_swap. cbn. exact Hid.
  - apply tuple_lt_iff.
Qed.

Lemma exactly_one_grants_witness :
  exists answer_a a' answer_b b',
    RequestAccess (own_request peer_B) peer_A = Some (answer_a, a') /\
    RequestAccess (own_request peer_A) peer_B = Some (answer_b, b') /\
    access_granted answer_a = negb (access_granted answer_b).
Proof.
  destruct (exactly_one_grants peer_A peer_B eq_refl eq_refl eq_refl eq_refl)
    as (ra & a' & rb & b' & Ea & Eb & G & _).
  { cbn. discriminate. }
  exists ra, a', rb, b'. repeat split; assumption.
Defined.

(** ** A batch of inbound requests *)

Lemma defers_frame c c' request :
  requesting c' = requesting c ->
  request_timestamp c' = request_timestamp c ->
  client_id c' = client_id c ->
  defers c' request = defers c request.
Proof. unfold defers. intros -> -> ->. reflexivity. Qed.

Lemma perform_RequestAccess request w :
  lock_held w = false ->
  exists w',
    perform (EvRequestAccess request) w = Some (tt, w') /\
    lock_held w' = false /\
    self w' =
      set_clock
        (snd (increment (snd (update (clock (self w)) (req_lamport_timestamp request)))))
        (if defers (self w) request
         then set_deferred_requests
                (deferred_requests (self w) ++ [entry_of request]) (self w)
         else self w).
Proof.
  intro H.
  destruct (RequestAccess_total request w H)
    as (resp & w1 & E1 & L1 & _ & _ & S1 & _).
  exists w1. split; [| split; [exact L1 | exact S1]].
  cbn [perform]. rewrite (bind_Some _ _ _ _ _ E1). reflexivity.
Qed.

Lemma inbound_batch requests :
  forall w,
    lock_held w = false ->
    exists w',
      run (inbound requests) w = Some w' /\
      lock_held w' = false /\
      deferred_requests (self w') =
        deferred_requests (self w)
        ++ map entry_of (filter (defers (self w)) requests) /\
      modifies [FClock; FDeferredRequests] (self w) (self w').
Proof.
  induction requests as [| r rs IH]; intros w H.
  - exists w. cbn. rewrite app_nil_r.
    repeat split; try assumption. intros f _. apply unchanged_refl.
  - destruct (perform_RequestAccess r w H) as (w1 & E1 & L1 & S1).
    destruct (IH w1 L1) as (w2 & E2 & L2 & Q2 & M2).
    assert (M1 : modifies [FClock; FDeferredRequests] (self w) (self w1)).
    { rewrite S1. destruct (defers (self w) r); solve_modifies. }
    assert (Hd : forall q, defers (self w1) q = defers (self w) q).
    { intro q. destruct M1 as [(Hid & _) U1].
      apply defers_frame; [apply (U1 FRequesting) | apply (U1 FRequestTimestamp) | exact Hid];
        cbn; intuition discriminate. }
    exists w2. split.
    { unfold inbound. cbn [map run]. rewrite E1. exact E2. }
    split; [exact L2 |]. split; [| eapply modifies_trans; eassumption].
    rewrite Q2. rewrite (filter_ext _ _ Hd). rewrite S1. cbn [filter].
    destruct (defers (self w) r); cbn.
    + rewrite <- app_assoc. reflexivity.
    + reflexivity.
Qed.

(** X3: a peer that handles a batch of inbound access requests one after
    the other queues exactly those its pending request has priority over,
    in the order in which they arrived, behind what was already queued;
    [requesting], [request_timestamp], [request_number] and
    [replies_received] are as before. *)
Theorem deferred_in_arrival_order (requests : list AccessRequest) (w : World) :
  lock_held w = false ->
  exists w',
    run (inbound requests) w = Some w' /\
    deferred_requests (self w') =
      deferred_requests (self w)
      ++ map entry_of (filter (defers (self w)) requests) /\
    modifies [FClock; FDeferredRequests] (self w) (self w') /\
    lock_held w' = false.
Proof.
  intro H. destruct (inbound_batch requests w H) as (w' & E & L & Q & Mo).
  exists w'. repeat split; assumption || apply Mo.
Qed.

Lemma deferred_in_arrival_order_witness :
  lock_held peer_A = false /\
  exists w',
    run (inbound [ {| req_client_id := 3; req_lamport_timestamp := 7;
                      req_request_number := 1 |};
                   {| req_client_id := 4; req_lamport_timestamp := 2;
                      req_request_number := 1 |};
                   request_of_B ]) peer_A = Some w' /\
    deferred_requests (self w') = [(3, 7); (2, 5)].
Proof.
  split; [reflexivity |].
  destruct (deferred_in_arrival_order
              [ {| req_client_id := 3; req_lamport_timestamp := 7;
                   req_request_number := 1 |};
                {| req_client_id := 4; req_lamport_timestamp := 2;
                   req_request_number := 1 |};
                request_of_B ] peer_A eq_refl) as (w' & E & Q & _).
  exists w'. split; [exact E | exact Q].
Defined.

(** ** What the two operations send *)

(** X4: [request_critical_section] sends exactly one access request to each
    configured peer, in the configured order and to no one else; all of
    them carry the peer's id and the timestamp and number of the request
    just started, which are the old clock plus one and the old request
    number plus one. *)
Theorem request_broadcast (net : Network) (polls : nat) (w : World) :
  lock_held w = false ->
  exists w',
    request_critical_section net (S polls) w = Some (tt, w') /\
    outbox w' =
      rev (map (fun peer => SentRequestAccess (snd peer) (own_request w'))
               (other_clients (self w))) ++ outbox w /\
    request_timestamp (self w') = time (clock (self w)) + 1 /\
    request_number (self w') = request_number (self w) + 1.
Proof.
  intro H.
  destruct (request_critical_section_total net polls w H)
    as (w' & E & _ & [(Hid & _) _] & _ & T & N & _ & O & _).
  exists w'. split; [exact E |]. split; [| split; [exact T | exact N]].
  unfold own_request. rewrite O, Hid, T, N. reflexivity.
Qed.

Lemma request_broadcast_witness :
  lock_held client_1 = false /\
  exists w',
    request_critical_section unreachable 1 client_1 = Some (tt, w') /\
    outbox w' =
      [ SentRequestAccess "localhost:50054"
          {| req_client_id := 1; req_lamport_timestamp := 1; req_request_number := 1 |};
        SentRequestAccess "localhost:50053"
          {| req_client_id := 1; req_lamport_timestamp := 1; req_request_number := 1 |} ].
Proof.
  split; [reflexivity |].
  destruct (request_broadcast unreachable 0 client_1 eq_refl) as (w' & E & O & T & N).
  exists w'. split; [exact E |].
  rewrite O. unfold own_request. rewrite T, N.
  assert (Hid : client_id (self w') = 1).
  { revert E. vm_compute. intro E. injection E as <-. reflexivity. }
  rewrite Hid. reflexivity.
Defined.

Lemma log_printed message w :
  exists w',
    log message w = Some (tt, w') /\
    self w' = self w /\ lock_held w' = lock_held w /\ outbox w' = outbox w /\
    console w' =
      {| line_client := client_id (self w);
         line_lt := time (clock (self w));
         line_message := message |} :: console w.
Proof.
  destruct w as [c l tr con out]. run_M.
  eexists; split; [reflexivity |]. cbn. repeat split.
Qed.

Lemma send_release_notification_sent net target address timestamp w :
  exists w',
    send_release_notification net target address timestamp w = Some (tt, w') /\
    self w' = self w /\ lock_held w' = lock_held w /\
    outbox w' =
      SentReleaseAccess address (release_message (self w) timestamp) :: outbox w.
Proof.
  destruct w as [c l tr con out]. unfold release_message. run_M.
  destruct (stub_ReleaseAccess net address _ _) as [r |]; run_M;
    (eexists; split; [reflexivity |]); cbn; repeat split.
Qed.

Lemma release_loop_sent net timestamp peers :
  forall w,
    exists w',
      for_each peers (fun peer =>
        send_release_notification net (fst peer) (snd peer) timestamp) w
        = Some (tt, w') /\
      self w' = self w /\ lock_held w' = lock_held w /\
      outbox w' =
        rev (map (fun peer =>
                    SentReleaseAccess (snd peer) (release_message (self w) timestamp))
                 peers) ++ outbox w.
Proof.
  induction peers as [| peer peers IH]; intro w.
  - exists w. repeat split.
  - destruct (send_release_notification_sent net (fst peer) (snd peer) timestamp w)
      as (w1 & E1 & S1 & L1 & O1).
    destruct (IH w1) as (w2 & E2 & S2 & L2 & O2).
    exists w2. split.
    { cbn [for_each]. rewrite (bind_Some _ _ _ _ _ E1). exact E2. }
    split; [congruence |]. split; [congruence |].
    rewrite O2, O1, S1. cbn [map rev]. rewrite <- app_assoc. reflexivity.
Qed.

Lemma granting_loop_printed entries :
  forall w,
    exists w',
      for_each entries (fun entry : Z * Z => log (MsgGrantingDeferred (fst entry))) w
        = Some (tt, w') /\
      self w' = self w /\ lock_held w' = lock_held w /\ outbox w' = outbox w /\
      console w' =
        rev (map (fun entry : Z * Z =>
                    {| line_client := client_id (self w);
                       line_lt := time (clock (self w));
                       line_message := MsgGrantingDeferred (fst entry) |})
                 entries) ++ console w.
Proof.
  induction entries as [| entry entries IH]; intro w.
  - exists w. repeat split.
  - destruct (log_printed (MsgGrantingDeferred (fst entry)) w)
      as (w1 & E1 & S1 & L1 & O1 & C1).
    destruct (IH w1) as (w2 & E2 & S2 & L2 & O2 & C2).
    exists w2. split.
    { cbn [for_each]. rewrite (bind_Some _ _ _ _ _ E1). exact E2. }
    split; [congruence |]. split; [congruence |]. split; [congruence |].
    rewrite C2, C1, S1. cbn [map rev]. rewrite <- app_assoc. reflexivity.
Qed.

(** X5: [release_critical_section] sends exactly one release message to
    each configured peer, in the configured order, stamped with the old
    clock plus one and carrying the current request number, and it sends
    nothing else: for the requests it had deferred it only prints one
    "Granting deferred request" line each, in queue order, as its last
    lines; no message goes to a deferred requester as such. *)
Theorem release_broadcast (net : Network) (w : World) :
  lock_held w = false ->
  exists w' earlier,
    release_critical_section net w = Some (tt, w') /\
    outbox w' =
      rev (map (fun peer =>
                  SentReleaseAccess (snd peer)
                    (release_message (self w) (time (clock (self w)) + 1)))
               (other_clients (self w))) ++ outbox w /\
    console w' =
      rev (map (fun entry : Z * Z =>
                  {| line_client := client_id (self w);
                     line_lt := time (clock (self w)) + 1;
                     line_message := MsgGrantingDeferred (fst entry) |})
               (deferred_requests (self w))) ++ earlier.
Proof.
  intro H.
  destruct (release_begin_total w H) as (w1 & E1 & L1 & O1 & S1 & _).
  destruct (log_printed (MsgReleasing (time (clock (self w)) + 1)) w1)
    as (w2 & E2 & S2 & L2 & O2 & C2).
  destruct (release_loop_sent net (time (clock (self w)) + 1)
              (other_clients (self w2)) w2) as (w3 & E3 & S3 & L3 & O3).
  destruct (granting_loop_printed (deferred_requests (self w)) w3)
    as (w4 & E4 & S4 & L4 & O4 & C4).
  exists w4, (console w3). split.
  { unfold release_critical_section.
    rewrite (bind_Some _ _ _ _ _ E1). cbn [fst snd].
    rewrite (bind_Some _ _ _ _ _ E2). rewrite bind_peek.
    rewrite (bind_Some _ _ _ _ _ E3). exact E4. }
  split.
  - rewrite O4, O3, O2, O1, S2, S1. reflexivity.
  - rewrite C4, S3, S2, S1. reflexivity.
Qed.

Lemma release_broadcast_witness :
  lock_held client_1_deferring = false /\
  deferred_requests (self client_1_deferring) = [(3, 7)] /\
  exists w' earlier,
    release_critical_section unreachable client_1_deferring = Some (tt, w') /\
    outbox w' =
      [ SentReleaseAccess "localhost:50054"
          {| rel_client_id := 1; rel_lamport_timestamp := 10; rel_request_number := 1 |};
        SentReleaseAccess "localhost:50053"
          {| rel_client_id := 1; rel_lamport_timestamp := 10; rel_request_number := 1 |} ] /\
    console w' =
      {| line_client := 1; line_lt := 10; line_message := MsgGrantingDeferred 3 |}
      :: earlier.
Proof.
  split; [reflexivity |]. split; [reflexivity |].
  destruct (release_broadcast unreachable client_1_deferring eq_refl)
    as (w' & earlier & E & O & C).
  exists w', earlier.
  split; [exact E |]. split; [rewrite O | rewrite C]; reflexivity.
Defined.

(** ** Stamps and request numbers over the events *)

Lemma Forall_below_mono (q : list (Z * Z)) a b :
  a <= b ->
  Forall (fun entry => snd entry < a) q -> Forall (fun entry => snd entry < b) q.
Proof.
  intros Hab. apply Forall_impl. intros entry H. lia.
Qed.

Lemma stamps_ok_later c c' :
  request_timestamp c' = request_timestamp c ->
  deferred_requests c' = deferred_requests c ->
  time (clock c) <= time (clock c') ->
  stamps_ok c -> stamps_ok c'.
Proof.
  unfold stamps_ok. intros -> -> Hle [Hr Hq]. split; [lia |].
  eapply Forall_below_mono; eassumption.
Qed.

Lemma send_loop_clock net num timestamp peers :
  forall w,
    lock_held w = false ->
    exists w',
      for_each peers (fun peer =>
        send_access_request net (fst peer) (snd peer) num timestamp) w
        = Some (tt, w') /\
      time (clock (self w)) <= time (clock (self w')).
Proof.
  induction peers as [| peer peers IH]; intros w H.
  - exists w. split; [reflexivity | lia].
  - destruct (send_access_request_total net (fst peer) (snd peer) num timestamp w H)
      as (w1 & E1 & L1 & _ & S1 & _).
    destruct (IH w1 L1) as (w2 & E2 & C2).
    exists w2. split.
    { cbn [for_each]. rewrite (bind_Some _ _ _ _ _ E1). exact E2. }
    assert (C1 : time (clock (self w)) <= time (clock (self w1))).
    { rewrite S1. destruct (stub_RequestAccess _ _ _ _); cbn; lia. }
    lia.
Qed.

Lemma request_critical_section_clock net polls w w' :
  lock_held w = false ->
  request_critical_section net polls w = Some (tt, w') ->
  time (clock (self w)) + 1 <= time (clock (self w')).
Proof.
  intros H E.
  destruct (request_begin_total w H) as (w1 & E1 & L1 & _ & S1 & _).
  destruct (log_total (MsgRequesting (request_number (self w) + 1)
                                     (time (clock (self w)) + 1)) w1)
    as (w2 & E2 & S2 & L2 & _).
  rewrite L1 in L2.
  destruct (send_loop_clock net (request_number (self w) + 1)
              (time (clock (self w)) + 1) (other_clients (self w2)) w2 L2)
    as (w3 & E3 & C3).
  destruct (send_loop_total net (request_number (self w) + 1)
              (time (clock (self w)) + 1) (other_clients (self w2)) w2 L2)
    as (w3' & E3' & L3 & _).
  rewrite E3 in E3'. injection E3' as <-.
  unfold request_critical_section in E.
  rewrite (bind_Some _ _ _ _ _ E1) in E. cbn [fst snd] in E.
  rewrite (bind_Some _ _ _ _ _ E2) in E. rewrite bind_peek in E.
  rewrite (bind_Some _ _ _ _ _ E3) in E. rewrite bind_peek in E.
  unfold bind in E.
  destruct (wait_for_replies polls _ w3) as [[[] w4] |] eqn:W; [| discriminate E].
  destruct (wait_for_replies_returned _ _ _ _ L3 W) as (_ & _ & _ & S4 & _).
  destruct (log_total MsgAllReplies w4) as (w5 & E5 & S5 & _).
  rewrite E5 in E. injection E as <-.
  rewrite S5, S4. rewrite S2, S1 in C3. cbn in C3. exact C3.
Qed.

(** What an event that returns does to the clock, the stamps and the
    request number. *)
Lemma perform_stamps e w w' :
  lock_held w = false ->
  perform e w = Some (tt, w') ->
  lock_held w' = false /\
  time (clock (self w)) <= time (clock (self w')) /\
  (stamps_ok (self w) -> stamps_ok (self w')) /\
  (forall t, inbound_stamp e = Some t -> t < time (clock (self w'))) /\
  request_number (self w') =
    request_number (self w) + (if starts_request e then 1 else 0) /\
  (starts_request e = true ->
   request_timestamp (self w') = time (clock (self w)) + 1).
Proof.
  intros H E.
  destruct (perform_returned e w w' H E) as (L' & _).
  split; [exact L' |].
  destruct e; cbn [perform inbound_stamp starts_request] in *.
  - destruct (RequestAccess_total request w H)
      as (resp & w1 & E1 & _ & _ & _ & S1 & _).
    rewrite (bind_Some _ _ _ _ _ E1) in E. injection E as <-.
    rewrite S1.
    split; [cbn; lia |]. split; [| split; [| split; [| discriminate]]].
    + unfold stamps_ok. intros [Hr Hq].
      destruct (defers (self w) request); cbn.
      * split; [lia |]. apply Forall_app. split.
        -- eapply Forall_below_mono; [| exact Hq]. lia.
        -- constructor; [cbn; lia | constructor].
      * split; [lia |]. eapply Forall_below_mono; [| exact Hq]. lia.
    + intros t Ht. injection Ht as <-. cbn. lia.
    + destruct (defers (self w) request); cbn; lia.
  - destruct (ReleaseAccess_total request w H) as (w1 & E1 & _ & _ & S1 & _).
    rewrite (bind_Some _ _ _ _ _ E1) in E. injection E as <-.
    rewrite S1.
    split; [cbn; lia |]. split; [| split; [| split; [cbn; lia | discriminate]]].
    + apply stamps_ok_later; cbn; try reflexivity; lia.
    + intros t Ht. injection Ht as <-. cbn. lia.
  - pose proof (request_critical_section_clock net polls w w' H E) as C.
    destruct polls as [| polls].
    { rewrite (request_critical_section_zero net w H) in E. discriminate. }
    destruct (request_critical_section_total net polls w H)
      as (w1 & E1 & _ & [_ U1] & _ & T1 & N1 & _).
    rewrite E1 in E. injection E as <-.
    split; [lia |]. split; [| split; [discriminate | split; [exact N1 | intros _; exact T1]]].
    unfold stamps_ok. intros [Hr Hq]. rewrite T1. split; [lia |].
    rewrite (U1 FDeferredRequests) by (cbn; intuition discriminate).
    eapply Forall_below_mono; [| exact Hq]. lia.
  - destruct (release_critical_section_total net w H) as (w1 & E1 & _ & S1 & _).
    rewrite E1 in E. injection E as <-. rewrite S1.
    split; [cbn; lia |]. split; [| split; [discriminate | split; [cbn; lia | discriminate]]].
    unfold stamps_ok. cbn. intros [Hr _]. split; [lia | constructor].
  - destruct (request_begin_total w H) as (w1 & E1 & _ & _ & S1 & _).
    rewrite (bind_Some _ _ _ _ _ E1) in E. injection E as <-. rewrite S1.
    split; [cbn; lia |].
    split; [| split; [discriminate | split; [reflexivity | reflexivity]]].
    unfold stamps_ok. cbn. intros [Hr Hq]. split; [lia |].
    eapply Forall_below_mono; [| exact Hq]. lia.
  - destruct (send_access_request_total net target_client_id target_address
                request_num timestamp w H) as (w1 & E1 & _ & _ & S1 & _).
    rewrite E1 in E. injection E as <-. rewrite S1.
    destruct (stub_RequestAccess _ _ _ _);
      (split; [cbn; lia |]);
      (split; [| split; [discriminate | split; [cbn; lia | discriminate]]]);
      apply stamps_ok_later; cbn; try reflexivity; lia.
  - destruct (wait_for_replies_returned polls required_replies w w' H E)
      as (_ & _ & _ & S1 & _).
    rewrite S1.
    split; [lia |]. split; [auto |].
    split; [discriminate | split; [lia | discriminate]].
  - destruct (release_begin_total w H) as (w1 & E1 & _ & _ & S1 & _).
    rewrite (bind_Some _ _ _ _ _ E1) in E. injection E as <-. rewrite S1.
    split; [cbn; lia |]. split; [| split; [discriminate | split; [cbn; lia | discriminate]]].
    unfold stamps_ok. cbn. intros [Hr _]. split; [lia | constructor].
  - destruct (send_release_notification_total net target_client_id
                target_address timestamp w) as (w1 & E1 & _ & S1 & _).
    rewrite E1 in E. injection E as <-. rewrite S1.
    split; [lia |]. split; [auto |].
    split; [discriminate | split; [lia | discriminate]].
Qed.

Lemma run_stamps events :
  forall w w',
    lock_held w = false ->
    run events w = Some w' ->
    lock_held w' = false /\
    time (clock (self w)) <= time (clock (self w')) /\
    (stamps_ok (self w) -> stamps_ok (self w')) /\
    request_number (self w') =
      request_number (self w)
      + Z.of_nat (List.length (filter starts_request events)).
Proof.
  induction events as [| e events IH]; intros w w' L E; cbn [run] in E.
  - injection E as <-.
    split; [exact L |]. split; [lia |]. split; [auto |]. cbn. lia.
  - destruct (perform e w) as [[[] w1] |] eqn:E1; [| discriminate].
    destruct (perform_stamps e w w1 L E1) as (L1 & C1 & I1 & _ & N1 & _).
    destruct (IH w1 w' L1 E) as (L2 & C2 & I2 & N2).
    split; [exact L2 |]. split; [lia |]. split; [auto |].
    rewrite N2, N1. cbn [filter].
    destruct (starts_request e); cbn [List.length]; lia.
Qed.

Lemma run_app events1 events2 w :
  run (events1 ++ events2) w =
  match run events1 w with
  | Some w1 => run events2 w1
  | None => None
  end.
Proof.
  revert w. induction events1 as [| e events1 IH]; intro w; cbn [run app].
  - reflexivity.
  - destruct (perform e w) as [[[] w1] |]; [apply IH | reflexivity].
Qed.

Lemma stamps_ok_init id port address peers :
  stamps_ok (IntelligentClient_init id port address peers).
Proof. split; [cbn; lia | constructor]. Qed.



(** X7: [request_number] counts the requests the peer has started: in
    every state reached from the initial state it equals the number of
    events so far that began a request, and no other event changes it. *)
Theorem request_number_counts (id port : Z) (address : string)
    (peers : list (Z * string)) (events : list Event) (w : World) :
  run events (World_init (IntelligentClient_init id port address peers)) = Some w ->
  request_number (self w) =
  Z.of_nat (List.length (filter starts_request events)).
Proof.
  intro E.
  destruct (run_stamps events
              (World_init (IntelligentClient_init id port address peers)) w
              eq_refl E) as (_ & _ & _ & N).
  rewrite N. reflexivity.
Qed.

Lemma request_number_counts_witness :
  exists w,
    run [EvRequestCriticalSection deferring 1;
         EvRequestAccess request_of_B;
         EvReleaseCriticalSection deferring;
         EvRequestBegin] client_1 = Some w /\
    request_number (self w) = 2.
Proof.
  eexists. split; [vm_compute; reflexivity |].
  refine (request_number_counts 1 50052 "localhost:50051"
            [(2, "localhost:50053"%string); (3, "localhost:50054"%string)]
            [EvRequestCriticalSection deferring 1;
             EvRequestAccess request_of_B;
             EvReleaseCriticalSection deferring;
             EvRequestBegin] _ _).
  vm_compute. reflexivity.
Defined.





(** ** The print server *)

From Stdlib Require DecimalZ DecimalPos.

Lemma str_inj a b : str a = str b -> a = b.
Proof.
  unfold str. intro H. apply DecimalZ.to_int_inj.
  assert (Hnn : forall z, Z.to_int z <> Decimal.Pos Decimal.Nil /\
                          Z.to_int z <> Decimal.Neg Decimal.Nil).
  { intro z. destruct z as [| p | p]; cbn; split; try discriminate;
      intro Hp; injection Hp as Hp;
      exact (DecimalPos.Unsigned.to_uint_nonnil p Hp). }
  apply (f_equal DecimalString.NilZero.int_of_string) in H.
  rewrite !DecimalString.NilZero.isi in H by apply Hnn.
  injection H as H. exact H.
Qed.

Lemma SendToPrinter_clock request s :
  pres_lamport_timestamp (fst (SendToPrinter request s)) =
    time (server_clock (snd (SendToPrinter request s))) /\
  time (server_clock s) < time (server_clock (snd (SendToPrinter request s))) /\
  pr_lamport_timestamp request < time (server_clock (snd (SendToPrinter request s))).
Proof. cbn. lia. Qed.

Lemma serve_all_above requests :
  forall s,
    Forall (fun response => time (server_clock s) < pres_lamport_timestamp response)
           (fst (serve_all requests s)) /\
    time (server_clock s) <= time (server_clock (snd (serve_all requests s))).
Proof.
  induction requests as [| request rest IH]; intro s; cbn [serve_all fst snd].
  - split; [constructor | lia].
  - destruct (SendToPrinter_clock request s) as (Ht & Hs & _).
    destruct (IH (snd (SendToPrinter request s))) as [Hall Hle].
    split; [| lia].
    constructor; [lia |].
    eapply Forall_impl; [| exact Hall]. cbn beta. intros response H. lia.
Qed.

Lemma serve_all_ordered requests :
  forall s i j ri rj,
    (i < j)%nat ->
    nth_error (fst (serve_all requests s)) i = Some ri ->
    nth_error (fst (serve_all requests s)) j = Some rj ->
    pres_lamport_timestamp ri < pres_lamport_timestamp rj.
Proof.
  induction requests as [| request rest IH]; intros s i j ri rj Hij Hi Hj;
    cbn [serve_all fst snd] in *.
  - destruct i; discriminate Hi.
  - destruct j as [| j]; [lia |]. cbn [nth_error] in Hj.
    destruct i as [| i]; cbn [nth_error] in Hi.
    + injection Hi as <-.
      destruct (SendToPrinter_clock request s) as (Ht & _).
      destruct (serve_all_above rest (snd (SendToPrinter request s))) as [Hall _].
      rewrite Forall_forall in Hall.
      specialize (Hall rj (nth_error_In _ _ Hj)).
      unfold SendToPrinter in *. cbn in *. lia.
    + apply (IH (snd (SendToPrinter request s)) i j); [lia | assumption | assumption].
Qed.

Lemma serve_all_counts requests :
  forall s,
    print_count (snd (serve_all requests s)) =
      print_count s + Z.of_nat (List.length requests) /\
    List.length (printed (snd (serve_all requests s))) =
      (List.length (printed s) + List.length requests)%nat /\
    Forall2 (fun request response =>
               success response = true /\
               pr_lamport_timestamp request < pres_lamport_timestamp response /\
               confirmation_message response =
                 ("Print completed for client " ++ str (pr_client_id request))%string)
            requests (fst (serve_all requests s)).
Proof.
  induction requests as [| request rest IH]; intro s; cbn [serve_all fst snd].
  - split; [cbn; lia |]. split; [cbn; lia | constructor].
  - destruct (IH (snd (SendToPrinter request s))) as (Hc & Hp & Hall).
    split; [rewrite Hc; cbn [List.length SendToPrinter snd print_count]; lia |].
    split; [rewrite Hp; cbn [List.length SendToPrinter snd printed]; lia |].
    constructor; [| exact Hall].
    split; [reflexivity |]. split; [cbn; lia | reflexivity].
Qed.

(** X10: a print server that handles requests one after the other answers
    each of them with [success = True], a confirmation naming the client,
    and a timestamp above the request's; it counts and prints exactly one
    job per request; and its responses are totally ordered: a later
    response carries a strictly larger timestamp than an earlier one. *)
Theorem print_server_sequence (requests : list PrintRequest)
    (s : PrintingServiceImpl) (i j : nat) (ri rj : PrintResponse) :
  print_count (snd (serve_all requests s)) =
    print_count s + Z.of_nat (List.length requests) /\
  List.length (printed (snd (serve_all requests s))) =
    (List.length (printed s) + List.length requests)%nat /\
  Forall2 (fun request response =>
             success response = true /\
             pr_lamport_timestamp request < pres_lamport_timestamp response /\
             confirmation_message response =
               ("Print completed for client " ++ str (pr_client_id request))%string)
          requests (fst (serve_all requests s)) /\
  ((i < j)%nat ->
   nth_error (fst (serve_all requests s)) i = Some ri ->
   nth_error (fst (serve_all requests s)) j = Some rj ->
   pres_lamport_timestamp ri < pres_lamport_timestamp rj).
Proof.
  destruct (serve_all_counts requests s) as (Hc & Hp & Hall).
  split; [exact Hc |]. split; [exact Hp |]. split; [exact Hall |].
  apply serve_all_ordered.
Qed.

Lemma print_server_sequence_witness :
  exists ri rj,
    nth_error (fst (serve_all
      [ {| pr_client_id := 1; pr_message_content := "Manual"; pr_lamport_timestamp := 30;
           pr_request_number := 1 |};
        {| pr_client_id := 2; pr_message_content := "Contrato"; pr_lamport_timestamp := 4;
           pr_request_number := 1 |} ] PrintingServiceImpl_init)) 0 = Some ri /\
    nth_error (fst (serve_all
      [ {| pr_client_id := 1; pr_message_content := "Manual"; pr_lamport_timestamp := 30;
           pr_request_number := 1 |};
        {| pr_client_id := 2; pr_message_content := "Contrato"; pr_lamport_timestamp := 4;
           pr_request_number := 1 |} ] PrintingServiceImpl_init)) 1 = Some rj /\
    pres_lamport_timestamp ri = 32 /\
    pres_lamport_timestamp ri < pres_lamport_timestamp rj.
Proof.
  eexists. eexists.
  split; [reflexivity |]. split; [reflexivity |]. split; [reflexivity |].
  refine (proj2 (proj2 (proj2 (print_server_sequence
    [ {| pr_client_id := 1; pr_message_content := "Manual"; pr_lamport_timestamp := 30;
         pr_request_number := 1 |};
      {| pr_client_id := 2; pr_message_content := "Contrato"; pr_lamport_timestamp := 4;
         pr_request_number := 1 |} ] PrintingServiceImpl_init 0 1 _ _))) _ eq_refl eq_refl).
  apply Nat.lt_0_1.
Defined.

(** X11: the confirmation the print server returns identifies the client:
    two confirmation messages are equal only when the two requests came
    from the same client id. *)
Theorem confirmation_identifies_client (r1 r2 : PrintRequest)
    (s1 s2 : PrintingServiceImpl) :
  confirmation_message (fst (SendToPrinter r1 s1)) =
  confirmation_message (fst (SendToPrinter r2 s2)) ->
  pr_client_id r1 = pr_client_id r2.
Proof.
  cbn [SendToPrinter fst confirmation_message]. intro H.
  apply str_inj.
  cbn [String.append] in H.
  repeat (injection H as H). exact H.
Qed.

Lemma confirmation_identifies_client_witness :
  confirmation_message
    (fst (SendToPrinter
            {| pr_client_id := 12; pr_message_content := "Manual";
               pr_lamport_timestamp := 3; pr_request_number := 1 |}
            PrintingServiceImpl_init))
  = confirmation_message
      (fst (SendToPrinter
              {| pr_client_id := 12; pr_message_content := "Contrato";
                 pr_lamport_timestamp := 8; pr_request_number := 4 |}
              (snd (SendToPrinter
                      {| pr_client_id := 12; pr_message_content := "Manual";
                         pr_lamport_timestamp := 3; pr_request_number := 1 |}
                      PrintingServiceImpl_init)))) /\
  pr_client_id {| pr_client_id := 12; pr_message_content := "Manual";
                  pr_lamport_timestamp := 3; pr_request_number := 1 |}
  = pr_client_id {| pr_client_id := 12; pr_message_content := "Contrato";
                    pr_lamport_timestamp := 8; pr_request_number := 4 |}.
Proof.
  split; [reflexivity |].
  exact (confirmation_identifies_client
           {| pr_client_id := 12; pr_message_content := "Manual";
              pr_lamport_timestamp := 3; pr_request_number := 1 |}
           {| pr_client_id := 12; pr_message_content := "Contrato";
              pr_lamport_timestamp := 8; pr_request_number := 4 |}
           PrintingServiceImpl_init
           (snd (SendToPrinter
                   {| pr_client_id := 12; pr_message_content := "Manual";
                      pr_lamport_timestamp := 3; pr_request_number := 1 |}
                   PrintingServiceImpl_init))
           eq_refl).
Defined.

(** ** The printer path of the client *)

(** Runs the straight-line part of a method of the station. *)
Ltac run_MP :=
  cbv beta iota zeta delta
    [bindP retP lift emit log_notice call_SendToPrinter send_to_printer
     show_status total_prints_incr world print_calls notices
     bind ret load store touch peek poke acquire release with_lock
     clock_increment clock_update clock_get_time print log
     self lock_held accesses console outbox];
  cbn [client_id client_port print_server_address other_clients clock
       requesting request_timestamp request_number replies_received
       deferred_requests total_prints running
       set_clock set_requesting set_request_timestamp set_request_number
       set_replies_received set_deferred_requests set_total_prints
       fst snd increment update get_time time negb].

Lemma lift_Some {A} (m : M A) st a w' :
  m (world st) = Some (a, w') ->
  lift m st = Some (a, {| world := w'; print_calls := print_calls st;
                          notices := notices st |}).
Proof. intro E. unfold lift. rewrite E. reflexivity. Qed.

Lemma bindP_Some {A B} (m : MP A) (f : A -> MP B) st a st' :
  m st = Some (a, st') -> bindP m f st = f a st'.
Proof. intro E. unfold bindP. rewrite E. reflexivity. Qed.

Lemma send_to_printer_total printer message st :
  let c := self (world st) in
  let request := {| pr_client_id := client_id c;
                    pr_message_content := message;
                    pr_lamport_timestamp := time (clock c) + 1;
                    pr_request_number := request_number c |} in
  let result := printer (print_server_address c) request
                        (List.length (print_calls st)) in
  exists st',
    send_to_printer printer message st = Some (tt, st') /\
    print_calls st' = (print_server_address c, request) :: print_calls st /\
    self (world st') =
      match result with
      | RpcOk response =>
          (if success response
           then set_total_prints (total_prints c + 1)
           else fun q => q)
            (set_clock
               {| time := Z.max (time (clock c) + 1)
                                (pres_lamport_timestamp response) + 1 |} c)
      | RpcError => set_clock {| time := time (clock c) + 1 |} c
      end /\
    lock_held (world st') = lock_held (world st) /\
    outbox (world st') = outbox (world st) /\
    console (world st') = console (world st).
Proof.
  destruct st as [[c l tr con out] calls outs]. run_MP.
  destruct (printer _ _ _) as [[ok conf ts] |]; run_MP.
  - destruct ok; run_MP;
      (eexists; split; [reflexivity |]); cbn; repeat split.
  - (eexists; split; [reflexivity |]); cbn; repeat split.
Qed.

(** X12: [send_to_printer] always returns, having sent one print request
    that carries the peer's id, the message, the clock plus one and the
    current request number.  [total_prints] goes up by one exactly when the
    server answered with [success]; on a failed print or an [RpcError] it
    stays.  Nothing but the clock and [total_prints] is modified: the
    mutual-exclusion state, the lock and the coordinator's outbox are as
    before; and the clock has advanced. *)
Theorem send_to_printer_outcome (printer : Printer) (message : string)
    (st : Station) :
  let c := self (world st) in
  let request := {| pr_client_id := client_id c;
                    pr_message_content := message;
                    pr_lamport_timestamp := time (clock c) + 1;
                    pr_request_number := request_number c |} in
  let result := printer (print_server_address c) request
                        (List.length (print_calls st)) in
  exists st',
    send_to_printer printer message st = Some (tt, st') /\
    print_calls st' = (print_server_address c, request) :: print_calls st /\
    total_prints (self (world st')) =
      total_prints c +
      match result with
      | RpcOk response => if success response then 1 else 0
      | RpcError => 0
      end /\
    time (clock (self (world st'))) =
      match result with
      | RpcOk response =>
          Z.max (time (clock c) + 1) (pres_lamport_timestamp response) + 1
      | RpcError => time (clock c) + 1
      end /\
    modifies [FClock; FTotalPrints] c (self (world st')) /\
    lock_held (world st') = lock_held (world st) /\
    outbox (world st') = outbox (world st).
Proof.
  intros c request result.
  destruct (send_to_printer_total printer message st)
    as (st' & E & P & S & L & O & _).
  exists st'. split; [exact E |]. split; [exact P |].
  fold c in S. fold request in S. fold result in S. rewrite S.
  destruct result as [response |]; [destruct (success response) |];
    cbn; (split; [lia |]); (split; [reflexivity |]);
    (split; [solve_modifies | split; assumption]).
Qed.

(** ** A print cycle *)

Lemma print_document_total net printer polls message st :
  lock_held (world st) = false ->
  let c := self (world st) in
  exists st' request,
    print_document net printer (S polls) message st = Some (tt, st') /\
    print_calls st' = (print_server_address c, request) :: print_calls st /\
    pr_client_id request = client_id c /\
    pr_message_content request = message /\
    pr_request_number request = request_number c + 1 /\
    time (clock c) + 1 < pr_lamport_timestamp request /\
    requesting (self (world st')) = false /\
    deferred_requests (self (world st')) = [] /\
    lock_held (world st') = false /\
    request_number (self (world st')) = request_number c + 1 /\
    request_timestamp (self (world st')) = time (clock c) + 1 /\
    total_prints (self (world st')) =
      total_prints c +
      match printer (print_server_address c) request
                    (List.length (print_calls st)) with
      | RpcOk response => if success response then 1 else 0
      | RpcError => 0
      end /\
    pr_lamport_timestamp request < time (clock (self (world st'))).
Proof.
  intros H c.
  destruct (request_critical_section_total net polls (world st) H)
    as (w1 & E1 & L1 & [(Hid & _ & Hadr & _) U1] & _ & T1 & N1 & _).
  pose proof (request_critical_section_clock net (S polls) (world st) w1 H E1) as C1.
  pose (st1 := {| world := w1; print_calls := print_calls st;
                  notices := notices st |}).
  destruct (send_to_printer_total printer message st1)
    as (st2 & E2 & P2 & S2 & L2 & _).
  cbn [world print_calls st1] in P2, S2, L2.
  rewrite L1 in L2.
  destruct (release_critical_section_total net (world st2) L2)
    as (w3 & E3 & L3 & S3 & _).
  exists {| world := w3; print_calls := print_calls st2; notices := notices st2 |}.
  eexists. split.
  { unfold print_document.
    rewrite (bindP_Some _ _ _ _ _ (lift_Some _ _ _ _ E1)). fold st1.
    rewrite (bindP_Some _ _ _ _ _ E2).
    apply lift_Some. exact E3. }
  cbn [world print_calls]. rewrite P2, S3.
  assert (Ht : total_prints (self w1) = total_prints c)
    by (apply (U1 FTotalPrints); cbn; intuition discriminate).
  rewrite Hadr, Hid, N1.
  split; [reflexivity |]. cbn [pr_client_id pr_message_content pr_request_number
                               pr_lamport_timestamp].
  split; [reflexivity |]. split; [reflexivity |]. split; [reflexivity |].
  split; [fold c in C1; lia |].
  split; [reflexivity |]. split; [reflexivity |]. split; [exact L3 |].
  rewrite Hadr, Hid, N1 in S2. fold c in S2, C1 |- *. rewrite S2.
  destruct (printer _ _ _) as [response |]; [destruct (success response) |];
    cbn; rewrite ?N1, ?T1, ?Ht; repeat split; lia.
Qed.

(** X13: [print_document] completes its cycle whatever the peers and the
    print server answer: it returns with [requesting] false, the deferred
    queue empty and the lock free, having started one more request and sent
    one print request in between, which carries the number of that request
    and a timestamp above the request's; [total_prints] goes up by one
    exactly when the server answered with [success], and the critical
    section is released also when the print failed. *)
Theorem print_document_cycle (net : Network) (printer : Printer) (polls : nat)
    (message : string) (st : Station) :
  lock_held (world st) = false ->
  let c := self (world st) in
  exists st' request,
    print_document net printer (S polls) message st = Some (tt, st') /\
    print_calls st' = (print_server_address c, request) :: print_calls st /\
    pr_client_id request = client_id c /\
    pr_message_content request = message /\
    pr_request_number request = request_number c + 1 /\
    request_timestamp (self (world st')) < pr_lamport_timestamp request /\
    requesting (self (world st')) = false /\
    deferred_requests (self (world st')) = [] /\
    lock_held (world st') = false /\
    request_number (self (world st')) = request_number c + 1 /\
    total_prints (self (world st')) =
      total_prints c +
      match printer (print_server_address c) request
                    (List.length (print_calls st)) with
      | RpcOk response => if success response then 1 else 0
      | RpcError => 0
      end.
Proof.
  intros H c.
  destruct (print_document_total net printer polls message st H)
    as (st' & request & E & P & I & Mg & N & T & R & Q & L & N' & T' & Tp & _).
  exists st', request. fold c in P, I, N, T, N', T', Tp.
  rewrite T'. repeat split; assumption.
Qed.

Lemma print_document_cycle_witness :
  lock_held (world (Station_init client_1)) = false /\
  exists st' request,
    print_document unreachable printer_down 1 "Manual" (Station_init client_1)
      = Some (tt, st') /\
    print_calls st' = [("localhost:50051"%string, request)] /\
    pr_request_number request = 1 /\
    requesting (self (world st')) = false /\
    total_prints (self (world st')) = 0.
Proof.
  split; [reflexivity |].
  destruct (print_document_cycle unreachable printer_down 0 "Manual"
              (Station_init client_1) eq_refl)
    as (st' & request & E & P & _ & _ & N & _ & R & _ & _ & _ & Tp).
  exists st', request. split; [exact E |]. split; [exact P |].
  split; [exact N |]. split; [exact R | exact Tp].
Defined.

(** ** Client and print server together *)


(** ** The status banner *)

(** X15: [show_status] changes nothing in the peer (no attribute, not the
    lock, nothing sent) and writes one banner with the current values; but
    it reads [requesting] and the deferred queue without taking the lock:
    run with the lock free, it leaves unlocked accesses to these fields in
    the trace. *)
Theorem show_status_reads_unlocked (st : Station) :
  exists st',
    show_status st = Some (tt, st') /\
    self (world st') = self (world st) /\
    lock_held (world st') = lock_held (world st) /\
    outbox (world st') = outbox (world st) /\
    print_calls st' = print_calls st /\
    notices st' =
      OutStatus (client_id (self (world st))) (client_port (self (world st)))
                (time (clock (self (world st))))
                (requesting (self (world st)))
                (total_prints (self (world st)))
                (Z.of_nat (List.length (deferred_requests (self (world st)))))
      :: notices st /\
    (lock_held (world st) = false ->
     lock_discipline state_field (accesses (world st')) = false).
Proof.
  destruct st as [[c l tr con out] calls outs]. run_MP.
  eexists. split; [reflexivity |]. cbn.
  repeat split. intros ->. reflexivity.
Qed.

Lemma show_status_reads_unlocked_witness :
  lock_held (world (Station_init client_1_deferring)) = false /\
  exists st',
    show_status (Station_init client_1_deferring) = Some (tt, st') /\
    notices st' = [OutStatus 1 50052 9 true 0 1] /\
    lock_discipline state_field (accesses (world st')) = false.
Proof.
  split; [reflexivity |].
  destruct (show_status_reads_unlocked (Station_init client_1_deferring))
    as (st' & E & _ & _ & _ & _ & N & D).
  exists st'. split; [exact E |]. split; [rewrite N; reflexivity |].
  apply D. reflexivity.
Defined.

(** ** An access request between two peers *)



(** ** The configured topology *)

Lemma main_config_valid i port peers :
  main_config i = Some (port, peers) -> i = 1 \/ i = 2 \/ i = 3.
Proof.
  unfold main_config.
  destruct (Z.eqb_spec i 1); [auto |].
  destruct (Z.eqb_spec i 2); [auto |].
  destruct (Z.eqb_spec i 3); [auto | discriminate].
Qed.

(** X17: the topology of [__main__] is consistent: a client's peer list
    names exactly the other configured clients, never the client itself and
    no id twice, and the address it holds for each of them is the port that
    client itself serves on. *)
Theorem topology_consistent (i port : Z) (peers : list (Z * string))
    (j : Z) (address : string) :
  main_config i = Some (port, peers) ->
  ~ In i (map fst peers) /\
  NoDup (map fst peers) /\
  (In (j, address) peers <->
   j <> i /\
   exists port_j peers_j,
     main_config j = Some (port_j, peers_j) /\ address = local_address port_j).
Proof.
  intro H.
  destruct (main_config_valid i port peers H) as [-> | [-> | ->]];
    cbn in H; injection H as <- <-.
  all: split; [cbn; intuition discriminate |].
  all: split; [repeat constructor; cbn; intuition discriminate |].
  all: split.
  all: try (intros [Hin | [Hin | []]]; injection Hin as <- <-;
            (split; [discriminate |]);
            eexists; eexists; split; reflexivity).
  all: intros (Hne & port_j & peers_j & Hj & ->);
    destruct (main_config_valid j port_j peers_j Hj) as [-> | [-> | ->]];
    try (exfalso; apply Hne; reflexivity);
    cbn in Hj; injection Hj as <- <-; cbn; tauto.
Qed.

Lemma topology_consistent_witness :
  main_config 2 =
    Some (50053, [(1, "localhost:50052"%string); (3, "localhost:50054"%string)]) /\
  (In (3, "localhost:50054"%string)
      [(1, "localhost:50052"%string); (3, "localhost:50054"%string)] <->
   3 <> 2 /\
   exists port_j peers_j,
     main_config 3 = Some (port_j, peers_j) /\
     "localhost:50054"%string = local_address port_j).
Proof.
  split; [reflexivity |].
  exact (proj2 (proj2 (topology_consistent 2 50053
                         [(1, "localhost:50052"%string); (3, "localhost:50054"%string)]
                         3 "localhost:50054" eq_refl))).
Defined.
